(** * SDM display core: [CoreImpl] (sdm/libs/core/core_impl.cpp)

    A shallow embedding of the lifecycle and display-factory layer of the
    Snapdragon Display Manager core, and the verification of its
    error-handling contract.

    [CoreImpl] is orchestration code: almost every statement is a call
    into a collaborator (the extension library, the hardware-info
    provider, the composition manager, the colour manager, the display
    classes).  The collaborators are kept abstract: they are arbitrary
    state transformers over an opaque world [W], bundled in the class
    [Collaborators].  Every method of [CoreImpl] becomes a computation in
    a small monad that threads the object's fields, the world and the
    caller's memory, and that records each collaborator call together with
    its result in an event log.

    Every public method takes [SCOPE_LOCK(locker_)] for its whole body, so
    the methods never interleave; the embedding is the sequential
    semantics of one method body run under that lock. *)

From Stdlib Require Import ZArith.
From stdpp Require Import base gmap strings list sorting.

Set Warnings "-clear-no-such-hyp".

Local Open Scope Z_scope.

(** ** Data model *)

(** Pointers.  An address is a positive number; a C++ pointer is either
    [NULL] or an address. *)
Definition addr := positive.
Definition ptr := option addr.
Definition NULL : ptr := None.

(** Modelled from the spec: the [DisplayError] enumeration is declared in a
    header that is not part of the sources at hand.  The enumerators the
    core names itself are [kErrorNone], [kErrorUndefined],
    [kErrorParameters] and [kErrorMemory]; every other value a collaborator
    may hand back ("pass-through errors from collaborators") is
    [kErrorOther]. *)
Inductive DisplayError :=
  | kErrorNone
  | kErrorUndefined
  | kErrorParameters
  | kErrorMemory
  | kErrorOther (code : positive).

#[global] Instance DisplayError_eq_dec : EqDecision DisplayError.
Proof. solve_decision. Defined.

(** Modelled from the spec: the [DisplayType] enumeration, also declared
    outside the sources at hand.  The core distinguishes the three display
    variants; an unscoped C++ enum can hold any other value of its
    underlying integer type, which is what the [default:] labels are for. *)
Inductive DisplayType :=
  | kBuiltIn
  | kPluggable
  | kVirtual
  | kDisplayTypeOther (raw : Z).

#[global] Instance DisplayType_eq_dec : EqDecision DisplayType.
Proof. solve_decision. Defined.

(** Modelled from the spec: one entry of the displays-status map, a record
    {display-type, status}.  The core only ever reads [display_type]. *)
Record HWDisplayInfo := {
  display_type : DisplayType;
  is_connected : bool;
}.

(** [HWDisplaysInfo] is a [std::map<int32_t, HWDisplayInfo>]. *)
Abbreviation HWDisplaysInfo := (gmap Z HWDisplayInfo).

(** Opaque values that the core only forwards. *)
Definition HWResourceInfo := Z.
Definition HWBwModes := Z.
Definition LayerBufferFormat := Z.

(** The two entry points resolved in the extension library, and the
    constants handed to the loader (macros of a header outside the sources
    at hand; only their identity matters). *)
Inductive SymbolName :=
  | CREATE_EXTENSION_INTERFACE_NAME
  | DESTROY_EXTENSION_INTERFACE_NAME.

Inductive LibraryName := EXTENSION_LIBRARY_NAME.
Inductive VersionTag := EXTENSION_VERSION_TAG.

(** The fields of a [CoreImpl] object.  The member objects [locker_],
    [extension_lib_] and [comp_mgr_] have no state the core reads; what
    they hold is part of the collaborators' world. *)
Record CoreImpl := {
  buffer_allocator_ : ptr;
  socket_handler_ : ptr;
  create_extension_intf_ : ptr;
  destroy_extension_intf_ : ptr;
  extension_intf_ : ptr;
  hw_info_intf_ : ptr;
  hw_resource_ : HWResourceInfo;
  hw_displays_info_ : HWDisplaysInfo;
}.

(** ** Observable effects *)

Inductive LogLevel := LogE | LogW.

(** One entry per collaborator call, with the arguments the core passed
    and the result it got back. *)
Inductive Event :=
  | EvDynLibOpen (name : LibraryName) (opened : bool)
  | EvDynLibSym (name : SymbolName) (resolved : bool) (stored : option ptr)
  | EvCreateExtensionIntf (fn : addr) (tag : VersionTag)
      (error : DisplayError) (written : option ptr)
  | EvHWInfoCreate (error : DisplayError) (written : option ptr)
  | EvHWInfoDestroy (intf : ptr)
  | EvHWGetHWResourceInfo (intf : addr) (error : DisplayError)
      (written : HWResourceInfo)
  | EvHWGetDisplaysStatus (intf : addr) (error : DisplayError)
      (written : HWDisplaysInfo)
  | EvHWGetFirstDisplayInterfaceType (intf : addr) (out : ptr)
      (error : DisplayError)
  | EvHWGetMaxDisplaysSupported (intf : addr) (type : DisplayType)
      (out : ptr) (error : DisplayError)
  | EvCompManagerInit (hw_res : HWResourceInfo)
      (extension_intf buffer_allocator socket_handler : ptr)
      (error : DisplayError)
  | EvCompManagerDeinit
  | EvCompManagerSetMaxBandwidthMode (mode : HWBwModes) (error : DisplayError)
  | EvCompManagerIsRotatorSupportedFormat (format : LayerBufferFormat)
      (supported : bool)
  | EvColorManagerInit (hw_res : HWResourceInfo) (error : DisplayError)
  | EvColorManagerDeinit
  | EvSignalIgnoreSIGPIPE
  | EvNewDisplay (variant : DisplayType) (display_id : option Z)
      (event_handler hw_info_intf buffer_allocator : ptr)
      (object : option addr)
  | EvDisplayInit (object : addr) (error : DisplayError)
  | EvDisplayDeinit (object : addr) (error : DisplayError)
  | EvDeleteDisplay (object : addr)
  | EvLog (level : LogLevel) (message : string).

#[global] Instance LogLevel_eq_dec : EqDecision LogLevel.
Proof. solve_decision. Defined.
#[global] Instance SymbolName_eq_dec : EqDecision SymbolName.
Proof. solve_decision. Defined.
#[global] Instance LibraryName_eq_dec : EqDecision LibraryName.
Proof. solve_decision. Defined.
#[global] Instance VersionTag_eq_dec : EqDecision VersionTag.
Proof. solve_decision. Defined.
#[global] Instance HWDisplayInfo_eq_dec : EqDecision HWDisplayInfo.
Proof. solve_decision. Defined.
#[global] Instance Event_eq_dec : EqDecision Event.
Proof. solve_decision. Defined.

(** ** The collaborators

    Everything [CoreImpl] calls but does not define.  Each operation takes
    the world and gives back its result and the next world, so a
    collaborator may answer differently each time it is asked (the
    hardware may change between two status queries, an allocation may
    fail now and succeed later).

    Out-parameters: an operation that is handed the address of a pointer
    ([Sym], [Create], the extension factory) gives back, next to its
    return value, [Some v] when it stores [v] there and [None] when it
    stores nothing; nothing is assumed about how the two relate.  An
    operation that is handed the address of a structure receives the old
    contents and gives back the new ones. *)
Class Collaborators (W : Type) := {
  DynLib_Open : LibraryName → W → bool * W;
  DynLib_Sym : SymbolName → W → (bool * option ptr) * W;
  extension_create : addr → VersionTag → W → (DisplayError * option ptr) * W;
  HWInfoInterface_Create : W → (DisplayError * option ptr) * W;
  HWInfoInterface_Destroy : ptr → W → W;
  HWInfo_GetHWResourceInfo :
    addr → HWResourceInfo → W → (DisplayError * HWResourceInfo) * W;
  HWInfo_GetDisplaysStatus :
    addr → HWDisplaysInfo → W → (DisplayError * HWDisplaysInfo) * W;
  HWInfo_GetFirstDisplayInterfaceType : addr → ptr → W → DisplayError * W;
  HWInfo_GetMaxDisplaysSupported :
    addr → DisplayType → ptr → W → DisplayError * W;
  CompManager_Init : HWResourceInfo → ptr → ptr → ptr → W → DisplayError * W;
  CompManager_Deinit : W → W;
  CompManager_SetMaxBandwidthMode : HWBwModes → W → DisplayError * W;
  CompManager_IsRotatorSupportedFormat : LayerBufferFormat → W → bool * W;
  ColorManagerProxy_Init : HWResourceInfo → W → DisplayError * W;
  ColorManagerProxy_Deinit : W → W;
  signal_ignore_SIGPIPE : W → W;
  (** [new DisplayX(...)]: the address of the constructed object, or
      [None] when the allocation fails. *)
  Display_new : DisplayType → option Z → ptr → ptr → ptr → W → option addr * W;
  DisplayBase_Init : addr → W → DisplayError * W;
  DisplayBase_Deinit : addr → W → DisplayError * W;
  Display_delete : addr → W → W;
}.

(** ** The machine and its monad *)

(** What a method body can touch: the fields of [*this], the
    collaborators' world, and the caller's [DisplayInterface *] slots that
    [CreateDisplay] stores into. *)
Record Machine (W : Type) := {
  this : CoreImpl;
  world : W;
  slots : gmap addr ptr;
}.
Arguments this {W} _.
Arguments world {W} _.
Arguments slots {W} _.
Arguments Build_Machine {W} _ _ _.

(** How a method body ends: it returns a value, or an exception leaves it
    ([std::bad_alloc] out of [new]), or it dereferences a null pointer. *)
Inductive Result (A : Type) :=
  | Returns (a : A)
  | Throws
  | Faults.
Arguments Returns {A} a.
Arguments Throws {A}.
Arguments Faults {A}.

Definition M (W A : Type) : Type := Machine W → Result A * Machine W * list Event.

Section Monad.
Context {W : Type}.

Definition ret {A} (a : A) : M W A := λ m, (Returns a, m, []).

Definition bind {A B} (c : M W A) (k : A → M W B) : M W B := λ m,
  match c m with
  | (Returns a, m1, t1) =>
      match k a m1 with (r, m2, t2) => (r, m2, t1 ++ t2) end
  | (Throws, m1, t1) => (Throws, m1, t1)
  | (Faults, m1, t1) => (Faults, m1, t1)
  end.

Definition throw {A} : M W A := λ m, (Throws, m, []).
Definition fault {A} : M W A := λ m, (Faults, m, []).

Definition emit (e : Event) : M W unit := λ m, (Returns tt, m, [e]).

Definition get_this : M W CoreImpl := λ m, (Returns (this m), m, []).

Definition modify_this (f : CoreImpl → CoreImpl) : M W unit := λ m,
  (Returns tt, Build_Machine (f (this m)) (world m) (slots m), []).

(** A collaborator call with a result, logged with that result. *)
Definition call {A} (op : W → A * W) (ev : A → Event) : M W A := λ m,
  match op (world m) with
  | (a, w) => (Returns a, Build_Machine (this m) w (slots m), [ev a])
  end.

(** A collaborator call without a result. *)
Definition call_ (op : W → W) (ev : Event) : M W unit := λ m,
  (Returns tt, Build_Machine (this m) (op (world m)) (slots m), [ev]).

(** [*l = p] on a caller's slot. *)
Definition store (l : addr) (p : ptr) : M W unit := λ m,
  (Returns tt, Build_Machine (this m) (world m) (<[l := p]> (slots m)), []).

Definition DLOGE (msg : string) : M W unit := emit (EvLog LogE msg).
Definition DLOGW (msg : string) : M W unit := emit (EvLog LogW msg).
End Monad.

Declare Scope method_scope.
Delimit Scope method_scope with method.
Notation "x ← c ; k" := (bind c (λ x, k))
  (at level 20, c at level 100, k at level 200, only parsing) : method_scope.
Notation "c ;; k" := (bind c (λ _, k))
  (at level 100, k at level 200, right associativity) : method_scope.
Local Open Scope method_scope.
Notation "' ( x , y ) ← c ; k" := (bind c (λ r, let '(x, y) := r in k))
  (at level 20, x name, y name, c at level 100, k at level 200,
   only parsing) : method_scope.

(** ** [CoreImpl] *)

(** Field updates. *)
Definition set_create_extension_intf_ (p : ptr) (c : CoreImpl) : CoreImpl :=
  {| buffer_allocator_ := buffer_allocator_ c;
     socket_handler_ := socket_handler_ c;
     create_extension_intf_ := p;
     destroy_extension_intf_ := destroy_extension_intf_ c;
     extension_intf_ := extension_intf_ c;
     hw_info_intf_ := hw_info_intf_ c;
     hw_resource_ := hw_resource_ c;
     hw_displays_info_ := hw_displays_info_ c |}.

Definition set_destroy_extension_intf_ (p : ptr) (c : CoreImpl) : CoreImpl :=
  {| buffer_allocator_ := buffer_allocator_ c;
     socket_handler_ := socket_handler_ c;
     create_extension_intf_ := create_extension_intf_ c;
     destroy_extension_intf_ := p;
     extension_intf_ := extension_intf_ c;
     hw_info_intf_ := hw_info_intf_ c;
     hw_resource_ := hw_resource_ c;
     hw_displays_info_ := hw_displays_info_ c |}.

Definition set_extension_intf_ (p : ptr) (c : CoreImpl) : CoreImpl :=
  {| buffer_allocator_ := buffer_allocator_ c;
     socket_handler_ := socket_handler_ c;
     create_extension_intf_ := create_extension_intf_ c;
     destroy_extension_intf_ := destroy_extension_intf_ c;
     extension_intf_ := p;
     hw_info_intf_ := hw_info_intf_ c;
     hw_resource_ := hw_resource_ c;
     hw_displays_info_ := hw_displays_info_ c |}.

Definition set_hw_info_intf_ (p : ptr) (c : CoreImpl) : CoreImpl :=
  {| buffer_allocator_ := buffer_allocator_ c;
     socket_handler_ := socket_handler_ c;
     create_extension_intf_ := create_extension_intf_ c;
     destroy_extension_intf_ := destroy_extension_intf_ c;
     extension_intf_ := extension_intf_ c;
     hw_info_intf_ := p;
     hw_resource_ := hw_resource_ c;
     hw_displays_info_ := hw_displays_info_ c |}.

Definition set_hw_resource_ (r : HWResourceInfo) (c : CoreImpl) : CoreImpl :=
  {| buffer_allocator_ := buffer_allocator_ c;
     socket_handler_ := socket_handler_ c;
     create_extension_intf_ := create_extension_intf_ c;
     destroy_extension_intf_ := destroy_extension_intf_ c;
     extension_intf_ := extension_intf_ c;
     hw_info_intf_ := hw_info_intf_ c;
     hw_resource_ := r;
     hw_displays_info_ := hw_displays_info_ c |}.

Definition set_hw_displays_info_ (d : HWDisplaysInfo) (c : CoreImpl) : CoreImpl :=
  {| buffer_allocator_ := buffer_allocator_ c;
     socket_handler_ := socket_handler_ c;
     create_extension_intf_ := create_extension_intf_ c;
     destroy_extension_intf_ := destroy_extension_intf_ c;
     extension_intf_ := extension_intf_ c;
     hw_info_intf_ := hw_info_intf_ c;
     hw_resource_ := hw_resource_ c;
     hw_displays_info_ := d |}.

(** [CoreImpl::CoreImpl(buffer_allocator, socket_handler)].

    Modelled from the spec: the default member initialisers are in
    core_impl.h, outside the sources at hand.  The pointers start out
    [NULL] ([Init]'s cleanup tests [hw_info_intf_] on a path where nothing
    may have been stored to it; the extension interface is "present iff
    the extension module loaded and its factory call succeeded") and the
    displays-status map starts out empty (it is "populated at init"). *)
Definition CoreImpl_new (buffer_allocator socket_handler : ptr) : CoreImpl :=
  {| buffer_allocator_ := buffer_allocator;
     socket_handler_ := socket_handler;
     create_extension_intf_ := NULL;
     destroy_extension_intf_ := NULL;
     extension_intf_ := NULL;
     hw_info_intf_ := NULL;
     hw_resource_ := 0;
     hw_displays_info_ := ∅ |}.

Section Methods.
Context {W : Type} `{Collaborators W}.

(** [p->...]: using [p] as the receiver of a call. *)
Definition deref (p : ptr) : M W addr :=
  match p with
  | Some a => ret a
  | None => fault
  end.

(** [*intf = display_base]. *)
Definition store_through (intf : ptr) (p : ptr) : M W unit :=
  l ← deref intf; store l p.

(** The label [CleanupOnError:] of [Init] (lines 102-107). *)
Definition CleanupOnError (error : DisplayError) : M W DisplayError :=
  self ← get_this;
  (if hw_info_intf_ self is Some _ then
     call_ (HWInfoInterface_Destroy (hw_info_intf_ self))
           (EvHWInfoDestroy (hw_info_intf_ self))
   else ret tt);;
  ret error.

(** [Init], from the creation of the hardware-info provider on
    (lines 71-100). *)
Definition Init_subsystems : M W DisplayError :=
  '(error, written) ←
    call HWInfoInterface_Create (λ r, EvHWInfoCreate r.1 r.2);
  (if written is Some p then modify_this (set_hw_info_intf_ p) else ret tt);;
  if decide (error ≠ kErrorNone) then CleanupOnError error else
  self ← get_this;
  intf ← deref (hw_info_intf_ self);
  '(error, written) ←
    call (HWInfo_GetHWResourceInfo intf (hw_resource_ self))
         (λ r, EvHWGetHWResourceInfo intf r.1 r.2);
  modify_this (set_hw_resource_ written);;
  if decide (error ≠ kErrorNone) then CleanupOnError error else
  self ← get_this;
  error ←
    call (CompManager_Init (hw_resource_ self) (extension_intf_ self)
            (buffer_allocator_ self) (socket_handler_ self))
         (EvCompManagerInit (hw_resource_ self) (extension_intf_ self)
            (buffer_allocator_ self) (socket_handler_ self));
  if decide (error ≠ kErrorNone) then CleanupOnError error else
  error ←
    call (ColorManagerProxy_Init (hw_resource_ self))
         (EvColorManagerInit (hw_resource_ self));
  (* if failed, doesn't affect display core functionalities. *)
  (if decide (error ≠ kErrorNone) then
     DLOGW "Unable creating color manager and continue without it."
   else ret tt);;
  (* Populate hw_displays_info_ once. *)
  intf ← deref (hw_info_intf_ self);
  '(error, written) ←
    call (HWInfo_GetDisplaysStatus intf (hw_displays_info_ self))
         (λ r, EvHWGetDisplaysStatus intf r.1 r.2);
  modify_this (set_hw_displays_info_ written);;
  (if decide (error ≠ kErrorNone) then
     DLOGW "Failed getting displays status. Error = %d"
   else ret tt);;
  call_ signal_ignore_SIGPIPE EvSignalIgnoreSIGPIPE;;
  ret kErrorNone.

(** [extension_lib_.Sym(name, &field)]: says whether the entry point was
    resolved, and may store its address in the field. *)
Definition Sym (name : SymbolName) (set_field : ptr → CoreImpl → CoreImpl)
  : M W bool :=
  '(resolved, stored) ←
    call (DynLib_Sym name) (λ r, EvDynLibSym name r.1 r.2);
  (if stored is Some p then modify_this (set_field p) else ret tt);;
  ret resolved.

(** [CoreImpl::Init] (lines 48-108). *)
Definition Init : M W DisplayError :=
  (* Try to load extension library & get handle to its interface. *)
  opened ← call (DynLib_Open EXTENSION_LIBRARY_NAME)
                (EvDynLibOpen EXTENSION_LIBRARY_NAME);
  if opened then
    have_create ← Sym CREATE_EXTENSION_INTERFACE_NAME set_create_extension_intf_;
    have_both ←
      (if have_create then
         Sym DESTROY_EXTENSION_INTERFACE_NAME set_destroy_extension_intf_
       else ret false);
    if negb have_both then
      DLOGE "Unable to load symbols, error = %s";;
      ret kErrorUndefined
    else
      self ← get_this;
      fn ← deref (create_extension_intf_ self);
      '(error, written) ←
        call (extension_create fn EXTENSION_VERSION_TAG)
             (λ r, EvCreateExtensionIntf fn EXTENSION_VERSION_TAG r.1 r.2);
      (if written is Some p then modify_this (set_extension_intf_ p)
       else ret tt);;
      if decide (error ≠ kErrorNone) then
        DLOGE "Unable to create interface";;
        ret error
      else Init_subsystems
  else
    DLOGW "Unable to load = %s, error = %s";;
    Init_subsystems.

(** [CoreImpl::Deinit] (lines 110-119). *)
Definition Deinit : M W DisplayError :=
  call_ ColorManagerProxy_Deinit EvColorManagerDeinit;;
  call_ CompManager_Deinit EvCompManagerDeinit;;
  self ← get_this;
  call_ (HWInfoInterface_Destroy (hw_info_intf_ self))
        (EvHWInfoDestroy (hw_info_intf_ self));;
  ret kErrorNone.

(** [new DisplayBuiltIn(...)], [new DisplayPluggable(...)],
    [new DisplayVirtual(...)]: the constructors get the event handler,
    [hw_info_intf_], [buffer_allocator_] and [&comp_mgr_] (a constant),
    and the display id in the second overload.  A [new]-expression
    gives the address of the object; when the allocation fails it does
    not give [NULL], [std::bad_alloc] leaves the method. *)
Definition new_Display (variant : DisplayType) (display_id : option Z)
    (event_handler : ptr) : M W ptr :=
  self ← get_this;
  object ←
    call (Display_new variant display_id event_handler
            (hw_info_intf_ self) (buffer_allocator_ self))
         (EvNewDisplay variant display_id event_handler
            (hw_info_intf_ self) (buffer_allocator_ self));
  match object with
  | Some a => ret (Some a)
  | None => throw
  end.

(** The common tail of both [CreateDisplay] overloads, from the test of
    [display_base] on (lines 149-160 and 199-211). *)
Definition CreateDisplay_init (display_base intf : ptr) : M W DisplayError :=
  match display_base with
  | None => ret kErrorMemory
  | Some object =>
      error ← call (DisplayBase_Init object) (EvDisplayInit object);
      if decide (error ≠ kErrorNone) then
        call_ (Display_delete object) (EvDeleteDisplay object);;
        ret error
      else
        store_through intf display_base;;
        ret kErrorNone
  end.

(** [CoreImpl::CreateDisplay], the overload that takes a [DisplayType]
    (lines 121-161). *)
Definition CreateDisplay (type : DisplayType) (event_handler intf : ptr)
  : M W DisplayError :=
  if bool_decide (event_handler = NULL) || bool_decide (intf = NULL) then
    ret kErrorParameters
  else
    match type with
    | kBuiltIn =>
        display_base ← new_Display kBuiltIn None event_handler;
        CreateDisplay_init display_base intf
    | kPluggable =>
        display_base ← new_Display kPluggable None event_handler;
        CreateDisplay_init display_base intf
    | kVirtual =>
        display_base ← new_Display kVirtual None event_handler;
        CreateDisplay_init display_base intf
    | _ =>
        DLOGE "Spurious display type %d";;
        ret kErrorParameters
    end.

(** [CoreImpl::CreateDisplay], the overload that takes an [int32_t]
    display id (lines 163-212). *)
Definition CreateDisplay_id (display_id : Z) (event_handler intf : ptr)
  : M W DisplayError :=
  if bool_decide (event_handler = NULL) || bool_decide (intf = NULL) then
    ret kErrorParameters
  else
    self ← get_this;
    match hw_displays_info_ self !! display_id with
    | None =>
        DLOGE "Spurious display id %d";;
        ret kErrorParameters
    | Some iter =>
        match display_type iter with
        | kBuiltIn =>
            display_base ← new_Display kBuiltIn (Some display_id) event_handler;
            CreateDisplay_init display_base intf
        | kPluggable =>
            display_base ← new_Display kPluggable (Some display_id) event_handler;
            CreateDisplay_init display_base intf
        | kVirtual =>
            display_base ← new_Display kVirtual (Some display_id) event_handler;
            CreateDisplay_init display_base intf
        | _ =>
            DLOGE "Spurious display type %d";;
            ret kErrorParameters
        end
    end.

(** [CoreImpl::DestroyDisplay] (lines 214-226). *)
Definition DestroyDisplay (intf : ptr) : M W DisplayError :=
  match intf with
  | None => ret kErrorParameters
  | Some display_base =>
      call (DisplayBase_Deinit display_base) (EvDisplayDeinit display_base);;
      call_ (Display_delete display_base) (EvDeleteDisplay display_base);;
      ret kErrorNone
  end.

(** [CoreImpl::SetMaxBandwidthMode] (lines 228-232). *)
Definition SetMaxBandwidthMode (mode : HWBwModes) : M W DisplayError :=
  call (CompManager_SetMaxBandwidthMode mode)
       (EvCompManagerSetMaxBandwidthMode mode).

(** [CoreImpl::GetFirstDisplayInterfaceType] (lines 234-237). *)
Definition GetFirstDisplayInterfaceType (hw_disp_info : ptr)
  : M W DisplayError :=
  self ← get_this;
  intf ← deref (hw_info_intf_ self);
  call (HWInfo_GetFirstDisplayInterfaceType intf hw_disp_info)
       (EvHWGetFirstDisplayInterfaceType intf hw_disp_info).

(** [CoreImpl::GetDisplaysStatus] (lines 239-247).  The argument is what
    the caller's [HWDisplaysInfo] holds on entry; the result carries
    what it holds on return. *)
Definition GetDisplaysStatus (hw_displays_info : HWDisplaysInfo)
  : M W (DisplayError * HWDisplaysInfo) :=
  self ← get_this;
  intf ← deref (hw_info_intf_ self);
  '(error, written) ←
    call (HWInfo_GetDisplaysStatus intf hw_displays_info)
         (λ r, EvHWGetDisplaysStatus intf r.1 r.2);
  (if decide (kErrorNone = error) then
     (* Needed for error-checking in CreateDisplay(int32_t display_id, ...)
        and getting display-type. *)
     modify_this (set_hw_displays_info_ written)
   else ret tt);;
  ret (error, written).

(** [CoreImpl::GetMaxDisplaysSupported] (lines 249-252). *)
Definition GetMaxDisplaysSupported (type : DisplayType) (max_displays : ptr)
  : M W DisplayError :=
  self ← get_this;
  intf ← deref (hw_info_intf_ self);
  call (HWInfo_GetMaxDisplaysSupported intf type max_displays)
       (EvHWGetMaxDisplaysSupported intf type max_displays).

(** [CoreImpl::IsRotatorSupportedFormat] (lines 254-257). *)
Definition IsRotatorSupportedFormat (format : LayerBufferFormat) : M W bool :=
  call (CompManager_IsRotatorSupportedFormat format)
       (EvCompManagerIsRotatorSupportedFormat format).

End Methods.

(** ** The public interface as one dispatcher *)

(** The two [CreateDisplay] overloads differ in how the variant is
    chosen. *)
Inductive DisplaySelector :=
  | ByType (type : DisplayType)
  | ById (display_id : Z).

(** A call of a public method, with its arguments. *)
Inductive Request :=
  | ReqCreateDisplay (sel : DisplaySelector) (event_handler intf : ptr)
  | ReqDestroyDisplay (intf : ptr)
  | ReqSetMaxBandwidthMode (mode : HWBwModes)
  | ReqGetFirstDisplayInterfaceType (hw_disp_info : ptr)
  | ReqGetDisplaysStatus (hw_displays_info : HWDisplaysInfo)
  | ReqGetMaxDisplaysSupported (type : DisplayType) (max_displays : ptr)
  | ReqIsRotatorSupportedFormat (format : LayerBufferFormat)
  | ReqDeinit.

(** What the call hands back. *)
Inductive Reply :=
  | RepError (error : DisplayError)
  | RepStatus (error : DisplayError) (hw_displays_info : HWDisplaysInfo)
  | RepBool (b : bool).

(** The display variants the factory can build. *)
Definition is_display_variant (type : DisplayType) : Prop :=
  type = kBuiltIn ∨ type = kPluggable ∨ type = kVirtual.

#[global] Instance is_display_variant_dec type : Decision (is_display_variant type).
Proof. unfold is_display_variant. apply _. Defined.

Section Interface.
Context {W : Type} `{Collaborators W}.

Definition CreateDisplay_either (sel : DisplaySelector)
    (event_handler intf : ptr) : M W DisplayError :=
  match sel with
  | ByType type => CreateDisplay type event_handler intf
  | ById display_id => CreateDisplay_id display_id event_handler intf
  end.

Definition serve (req : Request) : M W Reply :=
  match req with
  | ReqCreateDisplay sel event_handler intf =>
      e ← CreateDisplay_either sel event_handler intf; ret (RepError e)
  | ReqDestroyDisplay intf =>
      e ← DestroyDisplay intf; ret (RepError e)
  | ReqSetMaxBandwidthMode mode =>
      e ← SetMaxBandwidthMode mode; ret (RepError e)
  | ReqGetFirstDisplayInterfaceType hw_disp_info =>
      e ← GetFirstDisplayInterfaceType hw_disp_info; ret (RepError e)
  | ReqGetDisplaysStatus hw_displays_info =>
      '(e, written) ← GetDisplaysStatus hw_displays_info;
      ret (RepStatus e written)
  | ReqGetMaxDisplaysSupported type max_displays =>
      e ← GetMaxDisplaysSupported type max_displays; ret (RepError e)
  | ReqIsRotatorSupportedFormat format =>
      b ← IsRotatorSupportedFormat format; ret (RepBool b)
  | ReqDeinit =>
      e ← Deinit; ret (RepError e)
  end.
End Interface.

(** ** A scripted platform

    A concrete family of collaborators, used to run the methods on
    explicit inputs: every operation answers from a fixed script and
    leaves the world as it is. *)
Record Script := {
  s_open : bool;
  s_sym_create : ptr;
  s_sym_destroy : ptr;
  s_extension_create : DisplayError * option ptr;
  s_hw_info_create : DisplayError * option ptr;
  s_hw_resource : DisplayError * HWResourceInfo;
  s_comp_manager_init : DisplayError;
  s_color_manager_init : DisplayError;
  s_displays_status : DisplayError * HWDisplaysInfo;
  s_new : option addr;
  s_display_init : DisplayError;
  s_display_deinit : DisplayError;
}.

#[global] Instance scripted : Collaborators Script := {|
  DynLib_Open _ w := (s_open w, w);
  DynLib_Sym name w :=
    let p := match name with
             | CREATE_EXTENSION_INTERFACE_NAME => s_sym_create w
             | DESTROY_EXTENSION_INTERFACE_NAME => s_sym_destroy w
             end in
    ((bool_decide (p ≠ NULL), Some p), w);
  extension_create _ _ w := (s_extension_create w, w);
  HWInfoInterface_Create w := (s_hw_info_create w, w);
  HWInfoInterface_Destroy _ w := w;
  HWInfo_GetHWResourceInfo _ _ w := (s_hw_resource w, w);
  HWInfo_GetDisplaysStatus _ _ w := (s_displays_status w, w);
  HWInfo_GetFirstDisplayInterfaceType _ _ w := (kErrorNone, w);
  HWInfo_GetMaxDisplaysSupported _ _ _ w := (kErrorNone, w);
  CompManager_Init _ _ _ _ w := (s_comp_manager_init w, w);
  CompManager_Deinit w := w;
  CompManager_SetMaxBandwidthMode _ w := (kErrorNone, w);
  CompManager_IsRotatorSupportedFormat _ w := (true, w);
  ColorManagerProxy_Init _ w := (s_color_manager_init w, w);
  ColorManagerProxy_Deinit w := w;
  signal_ignore_SIGPIPE w := w;
  Display_new _ _ _ _ _ w := (s_new w, w);
  DisplayBase_Init _ w := (s_display_init w, w);
  DisplayBase_Deinit _ w := (s_display_deinit w, w);
  Display_delete _ w := w;
|}.

(** Display 0 is the built-in panel, display 1 a pluggable output, and
    display 7 carries a type that is none of the three variants. *)
Definition sample_status : HWDisplaysInfo :=
  <[0 := {| display_type := kBuiltIn; is_connected := true |}]>
  (<[1 := {| display_type := kPluggable; is_connected := false |}]>
  (<[7 := {| display_type := kDisplayTypeOther 4; is_connected := false |}]> ∅)).

(** A platform described by the answers that vary from one scenario to
    the next.  The rest is fixed: the create entry point resolves to
    address 11, the factory stores an extension interface at address 13
    when it succeeds, the hardware-info provider is created at address
    20 with resource info 5, and a display object lands at address 40. *)
Definition platform (opened : bool) (sym_destroy : ptr)
    (extension comp_manager color_manager : DisplayError)
    (status : DisplayError * HWDisplaysInfo)
    (display_init display_deinit : DisplayError) : Script := {|
  s_open := opened;
  s_sym_create := Some 11%positive;
  s_sym_destroy := sym_destroy;
  s_extension_create :=
    (extension,
     if decide (extension = kErrorNone) then Some (Some 13%positive) else None);
  s_hw_info_create := (kErrorNone, Some (Some 20%positive));
  s_hw_resource := (kErrorNone, 5);
  s_comp_manager_init := comp_manager;
  s_color_manager_init := color_manager;
  s_displays_status := status;
  s_new := Some 40%positive;
  s_display_init := display_init;
  s_display_deinit := display_deinit;
|}.

(** Everything works. *)
Definition healthy : Script :=
  platform true (Some 12%positive) kErrorNone kErrorNone kErrorNone
    (kErrorNone, sample_status) kErrorNone kErrorNone.

(** The extension library is not installed. *)
Definition no_extension_library : Script :=
  platform false NULL kErrorNone kErrorNone kErrorNone
    (kErrorNone, sample_status) kErrorNone kErrorNone.

(** The extension library lacks the destroy entry point. *)
Definition no_destroy_symbol : Script :=
  platform true NULL kErrorNone kErrorNone kErrorNone
    (kErrorNone, sample_status) kErrorNone kErrorNone.

(** The extension factory fails. *)
Definition extension_factory_fails : Script :=
  platform true (Some 12%positive) (kErrorOther 2) kErrorNone kErrorNone
    (kErrorNone, sample_status) kErrorNone kErrorNone.

(** The composition manager fails to initialise. *)
Definition comp_manager_down : Script :=
  platform true (Some 12%positive) kErrorNone (kErrorOther 3) kErrorNone
    (kErrorNone, sample_status) kErrorNone kErrorNone.

(** The colour manager fails to initialise. *)
Definition color_manager_down : Script :=
  platform true (Some 12%positive) kErrorNone kErrorNone (kErrorOther 4)
    (kErrorNone, sample_status) kErrorNone kErrorNone.

(** Display objects fail to initialise, for lack of memory. *)
Definition display_init_out_of_memory : Script :=
  platform true (Some 12%positive) kErrorNone kErrorNone kErrorNone
    (kErrorNone, sample_status) kErrorMemory kErrorNone.

(** Display objects fail to shut down. *)
Definition display_deinit_fails : Script :=
  platform true (Some 12%positive) kErrorNone kErrorNone kErrorNone
    (kErrorNone, sample_status) kErrorNone (kErrorOther 8).

(** A virtual display with id 9 has appeared. *)
Definition hotplugged_status : HWDisplaysInfo :=
  <[9 := {| display_type := kVirtual; is_connected := true |}]> sample_status.

Definition hotplugged : Script :=
  platform true (Some 12%positive) kErrorNone kErrorNone kErrorNone
    (kErrorNone, hotplugged_status) kErrorNone kErrorNone.

(** The status query fails. *)
Definition status_query_fails : Script :=
  platform true (Some 12%positive) kErrorNone kErrorNone kErrorNone
    (kErrorOther 6, hotplugged_status) kErrorNone kErrorNone.

(** A freshly constructed core on a given platform, with an allocator at
    address 1, a socket handler at address 2 and no caller slot written
    yet. *)
Definition boot (w : Script) : Machine Script :=
  Build_Machine (CoreImpl_new (Some 1%positive) (Some 2%positive)) w ∅.

(** The platform changes behind the core's back. *)
Definition replug (w : Script) (m : Machine Script) : Machine Script :=
  Build_Machine (this m) w (slots m).

(** The results of a run. *)
Definition result_of {W A} (x : Result A * Machine W * list Event) : Result A := x.1.1.
Definition machine_of {W A} (x : Result A * Machine W * list Event) : Machine W := x.1.2.
Definition events_of {W A} (x : Result A * Machine W * list Event) : list Event := x.2.

(** The core after a successful [Init] on the healthy platform, and the
    same core after display 9 has been plugged in. *)
Definition running : Machine Script := machine_of (Init (boot healthy)).
Definition stale : Machine Script := replug hotplugged running.

(** How a selector names a variant on a given core, and the display id
    that the constructor is handed. *)
Definition selected_type (sel : DisplaySelector) (c : CoreImpl) : option DisplayType :=
  match sel with
  | ByType type => Some type
  | ById display_id => display_type <$> hw_displays_info_ c !! display_id
  end.

Definition selected_id (sel : DisplaySelector) : option Z :=
  match sel with
  | ByType _ => None
  | ById display_id => Some display_id
  end.

(** The events of the extension-loading step of [Init]. *)
Definition extension_event (ev : Event) : bool :=
  match ev with
  | EvDynLibOpen _ _ | EvDynLibSym _ _ _ | EvCreateExtensionIntf _ _ _ _ => true
  | _ => false
  end.

(** The place of a collaborator call in the start-up sequence of [Init];
    log entries have none. *)
Definition init_step (ev : Event) : option nat :=
  match ev with
  | EvDynLibOpen _ _ => Some 0%nat
  | EvDynLibSym CREATE_EXTENSION_INTERFACE_NAME _ _ => Some 1%nat
  | EvDynLibSym DESTROY_EXTENSION_INTERFACE_NAME _ _ => Some 2%nat
  | EvCreateExtensionIntf _ _ _ _ => Some 3%nat
  | EvHWInfoCreate _ _ => Some 4%nat
  | EvHWGetHWResourceInfo _ _ _ => Some 5%nat
  | EvCompManagerInit _ _ _ _ _ => Some 6%nat
  | EvColorManagerInit _ _ => Some 7%nat
  | EvHWGetDisplaysStatus _ _ _ => Some 8%nat
  | EvSignalIgnoreSIGPIPE => Some 9%nat
  | EvHWInfoDestroy _ => Some 10%nat
  | _ => None
  end.

(** The public methods that call through [hw_info_intf_]. *)
Definition needs_provider (req : Request) : bool :=
  match req with
  | ReqGetFirstDisplayInterfaceType _
  | ReqGetDisplaysStatus _
  | ReqGetMaxDisplaysSupported _ _ => true
  | _ => false
  end.

(** A client: a sequence of calls of public methods, made one after the
    other for as long as they return. *)
Fixpoint serve_all {W} `{Collaborators W} (reqs : list Request) : M W (list Reply) :=
  match reqs with
  | [] => ret []
  | req :: reqs =>
      rep ← serve req;
      reps ← serve_all reqs;
      ret (rep :: reps)
  end.

(** The snapshot of the last status query that succeeded among the
    replies, or [cache] when there is none. *)
Definition last_snapshot (cache : HWDisplaysInfo) (reps : list Reply)
  : HWDisplaysInfo :=
  foldl (λ c rep,
           match rep with
           | RepStatus kErrorNone snapshot => snapshot
           | _ => c
           end) cache reps.

(** More platforms.  The provider cannot be created, and stores no
    pointer. *)
Definition provider_create_fails : Script := {|
  s_open := true;
  s_sym_create := Some 11%positive;
  s_sym_destroy := Some 12%positive;
  s_extension_create := (kErrorNone, Some (Some 13%positive));
  s_hw_info_create := (kErrorOther 5, None);
  s_hw_resource := (kErrorNone, 5);
  s_comp_manager_init := kErrorNone;
  s_color_manager_init := kErrorNone;
  s_displays_status := (kErrorNone, sample_status);
  s_new := Some 40%positive;
  s_display_init := kErrorNone;
  s_display_deinit := kErrorNone;
|}.

(** The provider is created but cannot report its resources. *)
Definition resource_query_fails : Script := {|
  s_open := true;
  s_sym_create := Some 11%positive;
  s_sym_destroy := Some 12%positive;
  s_extension_create := (kErrorNone, Some (Some 13%positive));
  s_hw_info_create := (kErrorNone, Some (Some 20%positive));
  s_hw_resource := (kErrorOther 7, 0);
  s_comp_manager_init := kErrorNone;
  s_color_manager_init := kErrorNone;
  s_displays_status := (kErrorNone, sample_status);
  s_new := Some 40%positive;
  s_display_init := kErrorNone;
  s_display_deinit := kErrorNone;
|}.

(** No memory is left for a display object. *)
Definition out_of_memory : Script := {|
  s_open := true;
  s_sym_create := Some 11%positive;
  s_sym_destroy := Some 12%positive;
  s_extension_create := (kErrorNone, Some (Some 13%positive));
  s_hw_info_create := (kErrorNone, Some (Some 20%positive));
  s_hw_resource := (kErrorNone, 5);
  s_comp_manager_init := kErrorNone;
  s_color_manager_init := kErrorNone;
  s_displays_status := (kErrorNone, sample_status);
  s_new := None;
  s_display_init := kErrorNone;
  s_display_deinit := kErrorNone;
|}.

(** The pluggable display 1 has been removed. *)
Definition unplugged_status : HWDisplaysInfo := delete 1 sample_status.

Definition unplugged : Script :=
  platform true (Some 12%positive) kErrorNone kErrorNone kErrorNone
    (kErrorNone, unplugged_status) kErrorNone kErrorNone.

(** A client that refreshes the status, creates display 9, destroys it
    and asks for the status again. *)
Definition session : list Request :=
  [ReqGetDisplaysStatus ∅;
   ReqCreateDisplay (ById 9) (Some 5%positive) (Some 6%positive);
   ReqDestroyDisplay (Some 40%positive);
   ReqIsRotatorSupportedFormat 3;
   ReqGetDisplaysStatus ∅].

(** * Verification *)

(** Symbolic execution of a method body: unfold the monad, then split on
    every collaborator answer and every test the body makes. *)
Ltac unfold_monad :=
  unfold store_through, deref, DLOGE, DLOGW, emit, modify_this, get_this,
    call, call_, store, throw, fault, bind, ret.

Ltac split_run :=
  repeat (cbn [fst snd] in *;
    match goal with
    | |- context [match ?x with _ => _ end] =>
        lazymatch x with
        | context [match _ with _ => _ end] => fail
        | @decide _ _ => destruct x
        | _ => destruct x eqn:?
        end
    end; cbn in *);
  repeat match goal with
    | n : ¬ _ ≠ _ |- _ => apply dec_stable in n
    end.

Ltac close_run := intros; simplify_eq/=; set_unfold; try naive_solver.

Section Factory.
Context {W : Type} `{Collaborators W}.
Implicit Types (m : Machine W) (t : list Event) (c : CoreImpl).

(** A [new]-expression never evaluates to a null pointer. *)
Lemma new_Display_nonnull variant display_id event_handler m p m' t :
  new_Display variant display_id event_handler m = (Returns p, m', t) →
  ∃ object, p = Some object ∧
    t = [EvNewDisplay variant display_id event_handler
           (hw_info_intf_ (this m)) (buffer_allocator_ (this m)) (Some object)].
Proof.
  unfold new_Display. unfold_monad. split_run; close_run.
Qed.

(** The tail of [CreateDisplay] on a constructed object, by the answer
    of the object's [Init]. *)
Lemma CreateDisplay_init_run object l m error w :
  DisplayBase_Init object (world m) = (error, w) →
  CreateDisplay_init (Some object) (Some l) m =
    if decide (error = kErrorNone) then
      (Returns kErrorNone,
       Build_Machine (this m) w (<[l := Some object]> (slots m)),
       [EvDisplayInit object error])
    else
      (Returns error,
       Build_Machine (this m) (Display_delete object w) (slots m),
       [EvDisplayInit object error; EvDeleteDisplay object]).
Proof.
  intros Hinit. unfold CreateDisplay_init. unfold_monad. cbn.
  rewrite Hinit. repeat case_decide; simplify_eq/=; done.
Qed.

(** When the selector names a variant, the allocation succeeds and the
    object initialises, the display is created. *)
Lemma CreateDisplay_succeeds sel event_handler l m variant object w1 w2 :
  selected_type sel (this m) = Some variant →
  is_display_variant variant →
  event_handler ≠ NULL →
  Display_new variant (selected_id sel) event_handler
    (hw_info_intf_ (this m)) (buffer_allocator_ (this m)) (world m)
    = (Some object, w1) →
  DisplayBase_Init object w1 = (kErrorNone, w2) →
  CreateDisplay_either sel event_handler (Some l) m =
    (Returns kErrorNone,
     Build_Machine (this m) w2 (<[l := Some object]> (slots m)),
     [EvNewDisplay variant (selected_id sel) event_handler
        (hw_info_intf_ (this m)) (buffer_allocator_ (this m)) (Some object);
      EvDisplayInit object kErrorNone]).
Proof.
  intros Hsel Hvar Hh Hnew Hinit.
  destruct event_handler as [h|]; [clear Hh|done].
  destruct sel as [type|display_id]; cbn in Hsel, Hnew |- *.
  - injection Hsel as ->.
    unfold CreateDisplay, new_Display, CreateDisplay_init. unfold_monad. cbn.
    destruct Hvar as [->| [->| ->]]; cbn; rewrite Hnew; cbn;
      rewrite Hinit; cbn; done.
  - unfold CreateDisplay_id, new_Display, CreateDisplay_init. unfold_monad. cbn.
    destruct (hw_displays_info_ (this m) !! display_id) as [iter|]; [|done].
    cbn in Hsel. injection Hsel as Hsel. rewrite Hsel.
    destruct Hvar as [->| [->| ->]]; cbn; rewrite Hnew; cbn;
      rewrite Hinit; cbn; done.
Qed.

(** The exit of the id overload at the failed lookup (lines 173-176). *)
Lemma CreateDisplay_id_miss display_id h l m :
  hw_displays_info_ (this m) !! display_id = None →
  CreateDisplay_id display_id (Some h) (Some l) m =
    (Returns kErrorParameters, m, [EvLog LogE "Spurious display id %d"]).
Proof.
  intros Hmiss. unfold CreateDisplay_id. unfold_monad. cbn.
  by rewrite Hmiss.
Qed.

(** C2.  Both [CreateDisplay] overloads, once an object has been
    constructed: the method calls the object's own [Init] and nothing
    else.  When that fails, the object is deleted, the caller gets the
    object's error unchanged and no caller slot is written; when it
    succeeds, the object is stored through [intf] and the method
    returns [kErrorNone].  Either way the fields of the core stay as
    they were. *)
Theorem CreateDisplay_init_protocol sel event_handler intf m r m' t
    variant display_id handler hw_info alloc object :
  CreateDisplay_either sel event_handler intf m = (r, m', t) →
  EvNewDisplay variant display_id handler hw_info alloc (Some object) ∈ t →
  ∃ error w1 w2,
    Display_new variant display_id handler hw_info alloc (world m)
      = (Some object, w1) ∧
    DisplayBase_Init object w1 = (error, w2) ∧
    this m' = this m ∧
    if decide (error = kErrorNone) then
      r = Returns kErrorNone ∧
      (∃ l, intf = Some l ∧ slots m' = <[l := Some object]> (slots m)) ∧
      world m' = w2 ∧
      t = [EvNewDisplay variant display_id handler hw_info alloc (Some object);
           EvDisplayInit object kErrorNone]
    else
      r = Returns error ∧
      slots m' = slots m ∧
      world m' = Display_delete object w2 ∧
      t = [EvNewDisplay variant display_id handler hw_info alloc (Some object);
           EvDisplayInit object error;
           EvDeleteDisplay object].
Proof.
  destruct sel as [type|id], event_handler as [h|], intf as [l|]; cbn;
    unfold CreateDisplay, CreateDisplay_id, new_Display, CreateDisplay_init;
    unfold_monad; cbn; split_run; intros Hrun Hev; simplify_eq/=;
    set_unfold; destruct_or?; simplify_eq/=;
    eexists _, _, _; (split; [eassumption|]); (split; [eassumption|]);
    (split; [done|]); destruct (decide (_ = kErrorNone)); simplify_eq/=;
    try contradiction; eauto 10.
Qed.

(** C5.  [CreateDisplay(type, handler, out)] with a null handler, a
    null [out] or a type outside the three variants returns
    [kErrorParameters] and leaves the whole machine as it was: no field
    of the core changes, no collaborator is called (so no object is
    constructed) and no caller slot is written.  The only trace is the
    error log of the [default:] label. *)
Theorem CreateDisplay_rejects_bad_arguments type event_handler intf m :
  event_handler = NULL ∨ intf = NULL ∨ ¬ is_display_variant type →
  ∃ t, CreateDisplay type event_handler intf m = (Returns kErrorParameters, m, t) ∧
       (t = [] ∨ t = [EvLog LogE "Spurious display type %d"]).
Proof.
  unfold is_display_variant, CreateDisplay. intros Hbad.
  destruct event_handler as [h|], intf as [l|]; cbn; eauto.
  destruct type; unfold_monad; cbn; eauto; naive_solver.
Qed.

(** C4.  [CreateDisplay(id, handler, out)] with non-null [handler] and
    [out], for an id that the cached snapshot does not hold: the method
    returns [kErrorParameters] after logging the unknown id, whatever
    the world is (in particular whatever the provider would answer to a
    status query now), and the machine is left as it was: nothing is
    constructed. *)
Theorem CreateDisplay_id_unknown display_id event_handler intf c (w : W) s :
  event_handler ≠ NULL →
  intf ≠ NULL →
  hw_displays_info_ c !! display_id = None →
  CreateDisplay_id display_id event_handler intf (Build_Machine c w s) =
    (Returns kErrorParameters, Build_Machine c w s,
     [EvLog LogE "Spurious display id %d"]).
Proof.
  intros Hh Hl Hmiss.
  destruct event_handler as [h|], intf as [l|]; try done.
  by apply CreateDisplay_id_miss.
Qed.

(** C3.  After a successful [GetDisplaysStatus], an id that the returned
    snapshot holds is found by [CreateDisplay(id, handler, out)]: the
    lookup in the cache yields the snapshot's entry, the unknown-id
    error is not raised, and for each of the three variants the method
    goes on to construct that variant, bound to the id. *)
Theorem CreateDisplay_id_after_status hw_displays_info m snapshot m1 t1
    display_id info event_handler intf r m2 t2 :
  GetDisplaysStatus hw_displays_info m = (Returns (kErrorNone, snapshot), m1, t1) →
  snapshot !! display_id = Some info →
  event_handler ≠ NULL →
  intf ≠ NULL →
  CreateDisplay_id display_id event_handler intf m1 = (r, m2, t2) →
  hw_displays_info_ (this m1) !! display_id = Some info ∧
  (EvLog LogE "Spurious display id %d" ∉ t2) ∧
  (is_display_variant (display_type info) →
   ∃ object rest,
     t2 = EvNewDisplay (display_type info) (Some display_id) event_handler
            (hw_info_intf_ (this m1)) (buffer_allocator_ (this m1)) object
          :: rest).
Proof.
  intros Hstatus Hin Hh Hl.
  assert (hw_displays_info_ (this m1) = snapshot) as Hcache.
  { revert Hstatus. unfold GetDisplaysStatus. unfold_monad.
    split_run; close_run. }
  destruct event_handler as [h|], intf as [l|]; try done.
  unfold CreateDisplay_id, new_Display, CreateDisplay_init. unfold_monad. cbn.
  rewrite Hcache, Hin. unfold is_display_variant.
  split_run; intros; simplify_eq/=; (split; [done|]);
    (split; [set_unfold; naive_solver|]); naive_solver.
Qed.

(** C9, as the code has it.  Neither overload faults, an exception only
    leaves the method from the [new]-expression, and a failure is either
    [kErrorParameters] raised before anything was constructed, or the
    error of the object's own [Init].  So [kErrorMemory] is never
    produced by the test of [display_base]: when a caller sees it, the
    object's [Init] returned it. *)
Theorem CreateDisplay_error_origin sel event_handler intf m r m' t :
  CreateDisplay_either sel event_handler intf m = (r, m', t) →
  r ≠ Faults ∧
  (r = Throws → ∃ variant display_id handler hw_info alloc,
      t = [EvNewDisplay variant display_id handler hw_info alloc None]) ∧
  (∀ error, r = Returns error → error ≠ kErrorNone →
     (error = kErrorParameters ∧ ∀ ev, ev ∈ t → ∃ msg, ev = EvLog LogE msg) ∨
     (∃ object, EvDisplayInit object error ∈ t)) ∧
  (r = Returns kErrorMemory → ∃ object, EvDisplayInit object kErrorMemory ∈ t).
Proof.
  destruct sel as [type|id], event_handler as [h|], intf as [l|]; cbn;
    unfold CreateDisplay, CreateDisplay_id, new_Display, CreateDisplay_init;
    unfold_monad; cbn; split_run; intros Hrun; simplify_eq/=;
    (split; [done|]); (split; [intros; simplify_eq/=; eauto 10|]);
    (split; [|intros; simplify_eq/=; set_unfold; eauto]);
    intros error ? ?; simplify_eq/=; set_unfold;
    first [ right; eexists; eauto; fail | left; naive_solver ].
Qed.

(** C10.  [DestroyDisplay] on a non-null handle: whatever the object's
    [Deinit] returns, the object is deleted and the method returns
    [kErrorNone]. *)
Theorem DestroyDisplay_discards_Deinit_result display_base m error w :
  DisplayBase_Deinit display_base (world m) = (error, w) →
  DestroyDisplay (Some display_base) m =
    (Returns kErrorNone,
     Build_Machine (this m) (Display_delete display_base w) (slots m),
     [EvDisplayDeinit display_base error; EvDeleteDisplay display_base]).
Proof.
  intros Hdeinit. unfold DestroyDisplay. unfold_monad. cbn.
  by rewrite Hdeinit.
Qed.

End Factory.

Section Lifecycle.
Context {W : Type} `{Collaborators W}.
Implicit Types (m : Machine W) (t : list Event) (c : CoreImpl).

(** The subsystem phase of [Init] makes no call into the extension
    library. *)
Lemma Init_subsystems_events m r m' t ev :
  Init_subsystems m = (r, m', t) → ev ∈ t → extension_event ev = false.
Proof.
  unfold Init_subsystems, CleanupOnError. unfold_monad.
  split_run; intros Hrun Hev; simplify_eq/=; set_unfold;
    destruct_or?; by simplify_eq/=.
Qed.

(** [Init] is the extension-loading step followed by the subsystem
    phase: either the first step ends the method (with an error, or by
    calling through a null factory pointer), having made only
    extension-library calls, or the subsystem phase runs on a machine
    that differs from the initial one in the extension fields and the
    world only, and decides the result. *)
Lemma Init_phases m r m' t :
  Init m = (r, m', t) →
  ((r = Faults ∨ ∃ error, r = Returns error ∧ error ≠ kErrorNone) ∧
   ∀ ev, ev ∈ t → extension_event ev = true ∨ ∃ msg, ev = EvLog LogE msg)
  ∨
  (∃ m0 t0 t1,
     t = t0 ++ t1 ∧ Init_subsystems m0 = (r, m', t1) ∧
     (∀ ev, ev ∈ t0 → extension_event ev = true ∨ ∃ msg, ev = EvLog LogW msg) ∧
     hw_info_intf_ (this m0) = hw_info_intf_ (this m) ∧
     hw_displays_info_ (this m0) = hw_displays_info_ (this m) ∧
     slots m0 = slots m).
Proof.
  unfold Init, Sym. unfold_monad. split_run; intros Hrun; simplify_eq/=.
  all: try (left; split; [by eauto|];
            intros ev Hev; set_unfold; destruct_or?; simplify_eq/=; eauto; fail).
  all: right; eexists _, _, _; (split; [|split; [eassumption|]]);
    [try reflexivity|].
  all: try (instantiate (1 := [_; _]); reflexivity).
  all: try (instantiate (1 := [_; _; _; _]); reflexivity).
  all: split_and!; try done;
    intros ev Hev; set_unfold; destruct_or?; simplify_eq/=; eauto.
Qed.

(** The subsystem phase when the composition manager refuses to
    initialise. *)
Lemma Init_subsystems_comp_manager_failure m r m' t hw_res ext alloc sock error :
  Init_subsystems m = (r, m', t) →
  EvCompManagerInit hw_res ext alloc sock error ∈ t →
  error ≠ kErrorNone →
  r = Returns error ∧
  hw_displays_info_ (this m') = hw_displays_info_ (this m) ∧
  slots m' = slots m ∧
  ∃ intf pre,
    hw_info_intf_ (this m') = Some intf ∧
    t = pre ++ [EvCompManagerInit hw_res ext alloc sock error;
                EvHWInfoDestroy (Some intf)] ∧
    (hw_info_intf_ (this m) = NULL →
     EvHWInfoCreate kErrorNone (Some (Some intf)) ∈ pre).
Proof.
  unfold Init_subsystems, CleanupOnError. unfold_monad.
  split_run; intros Hrun Hev Herr; simplify_eq/=; set_unfold;
    destruct_or?; simplify_eq/=.
  all: split_and!; try done.
  all: eexists _, [_; _]; split_and!; try reflexivity;
    intros; simplify_eq/=; set_unfold; eauto.
Qed.

(** The subsystem phase when the colour manager refuses to
    initialise. *)
Lemma Init_subsystems_color_manager_failure m r m' t hw_res error :
  Init_subsystems m = (r, m', t) →
  EvColorManagerInit hw_res error ∈ t →
  error ≠ kErrorNone →
  r = Returns kErrorNone ∧
  EvLog LogW "Unable creating color manager and continue without it." ∈ t ∧
  (∀ intf, EvHWInfoDestroy intf ∉ t) ∧
  (∃ intf, hw_info_intf_ (this m') = Some intf) ∧
  slots m' = slots m.
Proof.
  unfold Init_subsystems, CleanupOnError. unfold_monad.
  split_run; intros Hrun Hev Herr; simplify_eq/=; set_unfold;
    destruct_or?; simplify_eq/=.
  all: split_and!; eauto 10; intros intf Hd; destruct_or?; by simplify_eq/=.
Qed.

(** C1, as the code has it.  When the composition manager fails to
    initialise during [Init]: [Init] returns exactly the composition
    manager's error; its last act is to destroy the hardware-info
    provider held in [hw_info_intf_], which on a core that held none
    before is the one [HWInfoInterface::Create] has just stored; and
    the cached displays status is left as it was before [Init].  So the
    id overload of [CreateDisplay] rejects with [kErrorParameters],
    without constructing anything, every id that was not cached before
    [Init] (on a freshly constructed core: every id).  The type overload
    is not guarded by the outcome of [Init]: it constructs and
    initialises the object as on any other core, and succeeds when the
    object's own [Init] does. *)
Theorem Init_comp_manager_failure m r m' t hw_res ext alloc sock error :
  Init m = (r, m', t) →
  EvCompManagerInit hw_res ext alloc sock error ∈ t →
  error ≠ kErrorNone →
  r = Returns error ∧
  (∃ intf pre,
     hw_info_intf_ (this m') = Some intf ∧
     t = pre ++ [EvCompManagerInit hw_res ext alloc sock error;
                 EvHWInfoDestroy (Some intf)] ∧
     (hw_info_intf_ (this m) = NULL →
      EvHWInfoCreate kErrorNone (Some (Some intf)) ∈ pre)) ∧
  hw_displays_info_ (this m') = hw_displays_info_ (this m) ∧
  (∀ display_id event_handler intf,
     event_handler ≠ NULL → intf ≠ NULL →
     hw_displays_info_ (this m) !! display_id = None →
     CreateDisplay_id display_id event_handler intf m' =
       (Returns kErrorParameters, m', [EvLog LogE "Spurious display id %d"])) ∧
  (∀ type event_handler l object w1 w2,
     is_display_variant type → event_handler ≠ NULL →
     Display_new type None event_handler
       (hw_info_intf_ (this m')) (buffer_allocator_ (this m')) (world m')
       = (Some object, w1) →
     DisplayBase_Init object w1 = (kErrorNone, w2) →
     CreateDisplay type event_handler (Some l) m' =
       (Returns kErrorNone,
        Build_Machine (this m') w2 (<[l := Some object]> (slots m')),
        [EvNewDisplay type None event_handler
           (hw_info_intf_ (this m')) (buffer_allocator_ (this m')) (Some object);
         EvDisplayInit object kErrorNone])).
Proof.
  intros Hrun Hev Herr.
  destruct (Init_phases _ _ _ _ Hrun)
    as [(_ & Hext)|(m0 & t0 & t1 & -> & Hsub & Hext & Hintf & Hcache & _)].
  { destruct (Hext _ Hev) as [?|[? ?]]; done. }
  apply elem_of_app in Hev as [Hev|Hev].
  { destruct (Hext _ Hev) as [?|[? ?]]; done. }
  destruct (Init_subsystems_comp_manager_failure _ _ _ _ _ _ _ _ _ Hsub Hev Herr)
    as (-> & Hcache' & _ & intf & pre & Hintf' & -> & Hcreated).
  split; [done|]. split.
  { exists intf, (t0 ++ pre). split; [done|]. split; [by rewrite (assoc_L (++))|].
    intros Hnull. apply elem_of_app. right. apply Hcreated. congruence. }
  split; [congruence|]. split.
  - intros display_id [h|] [l|] ? ? Hmiss; try done.
    apply CreateDisplay_id_miss. congruence.
  - intros type event_handler l object w1 w2 Hvar Hh Hnew Hinit.
    by apply (CreateDisplay_succeeds (ByType type) event_handler l m' type object w1 w2).
Qed.

(** C7.  When the colour manager fails to initialise during [Init] (so
    every step before it has succeeded): the failure is logged as a
    warning and [Init] returns [kErrorNone]; the hardware-info provider
    is not destroyed and stays in [hw_info_intf_]; and on the resulting
    core either [CreateDisplay] overload creates a display whenever it
    names one of the three variants, the allocation succeeds and the
    object's own [Init] succeeds. *)
Theorem Init_color_manager_failure m r m' t hw_res error :
  Init m = (r, m', t) →
  EvColorManagerInit hw_res error ∈ t →
  error ≠ kErrorNone →
  r = Returns kErrorNone ∧
  EvLog LogW "Unable creating color manager and continue without it." ∈ t ∧
  (∀ intf, EvHWInfoDestroy intf ∉ t) ∧
  (∃ intf, hw_info_intf_ (this m') = Some intf) ∧
  (∀ sel event_handler l variant object w1 w2,
     selected_type sel (this m') = Some variant →
     is_display_variant variant → event_handler ≠ NULL →
     Display_new variant (selected_id sel) event_handler
       (hw_info_intf_ (this m')) (buffer_allocator_ (this m')) (world m')
       = (Some object, w1) →
     DisplayBase_Init object w1 = (kErrorNone, w2) →
     CreateDisplay_either sel event_handler (Some l) m' =
       (Returns kErrorNone,
        Build_Machine (this m') w2 (<[l := Some object]> (slots m')),
        [EvNewDisplay variant (selected_id sel) event_handler
           (hw_info_intf_ (this m')) (buffer_allocator_ (this m')) (Some object);
         EvDisplayInit object kErrorNone])).
Proof.
  intros Hrun Hev Herr.
  destruct (Init_phases _ _ _ _ Hrun)
    as [(_ & Hext)|(m0 & t0 & t1 & -> & Hsub & Hext & _)].
  { destruct (Hext _ Hev) as [?|[? ?]]; done. }
  apply elem_of_app in Hev as [Hev|Hev].
  { destruct (Hext _ Hev) as [?|[? ?]]; done. }
  destruct (Init_subsystems_color_manager_failure _ _ _ _ _ _ Hsub Hev Herr)
    as (-> & Hlog & Hkept & Hintf & _).
  split; [done|]. split; [apply elem_of_app; by right|]. split.
  { intros intf [Hd|Hd]%elem_of_app; [|by eapply Hkept].
    destruct (Hext _ Hd) as [?|[? ?]]; done. }
  split; [done|]. intros. by eapply CreateDisplay_succeeds.
Qed.

(** The composition manager is handed the extension interface that the
    core holds when the subsystem phase starts. *)
Lemma Init_subsystems_extension_intf m r m' t hw_res ext alloc sock error :
  Init_subsystems m = (r, m', t) →
  EvCompManagerInit hw_res ext alloc sock error ∈ t →
  ext = extension_intf_ (this m).
Proof.
  unfold Init_subsystems, CleanupOnError. unfold_monad.
  split_run; intros Hrun Hev; simplify_eq/=; set_unfold;
    destruct_or?; by simplify_eq/=.
Qed.

(** C6.  The extension-loading step of [Init].
    - The library does not open: a warning is logged, no field of the
      core is touched (the composition manager is later handed the
      extension interface the core had before, [NULL] on a new core),
      and [Init] goes on: its result is that of the subsystem phase.
    - The library opens and one of the two entry points does not
      resolve: [Init] logs the error and returns [kErrorUndefined] at
      once.
    - Both resolve and the factory returns an error: [Init] logs it and
      returns that error at once. *)
Theorem Init_extension_loading m r m' t :
  Init m = (r, m', t) →
  (EvDynLibOpen EXTENSION_LIBRARY_NAME false ∈ t →
     (∃ w t1,
        DynLib_Open EXTENSION_LIBRARY_NAME (world m) = (false, w) ∧
        t = EvDynLibOpen EXTENSION_LIBRARY_NAME false
            :: EvLog LogW "Unable to load = %s, error = %s" :: t1 ∧
        Init_subsystems (Build_Machine (this m) w (slots m)) = (r, m', t1)) ∧
     (∀ hw_res ext alloc sock error,
        EvCompManagerInit hw_res ext alloc sock error ∈ t →
        ext = extension_intf_ (this m))) ∧
  (∀ name stored, EvDynLibSym name false stored ∈ t →
     r = Returns kErrorUndefined ∧
     ∃ pre, t = pre ++ [EvDynLibSym name false stored;
                        EvLog LogE "Unable to load symbols, error = %s"]) ∧
  (∀ fn tag error written,
     EvCreateExtensionIntf fn tag error written ∈ t →
     error ≠ kErrorNone →
     r = Returns error ∧
     ∃ pre, t = pre ++ [EvCreateExtensionIntf fn tag error written;
                        EvLog LogE "Unable to create interface"]).
Proof.
  unfold Init, Sym. unfold_monad. split_run; intros Hrun; simplify_eq/=.
  all: split_and!; intros; set_unfold; destruct_or?; simplify_eq/=.
  all: try match goal with
       | Hs : Init_subsystems _ = _, Hev : _ ∈ _ |- _ =>
           by apply (Init_subsystems_events _ _ _ _ _ Hs) in Hev
       end.
  all: try match goal with
       | Hs : Init_subsystems _ = _ |- (∃ w t1, _) ∧ _ =>
           split; [by eexists _, _|];
           intros ????? Hev; destruct_or?; simplify_eq/=;
           by apply (Init_subsystems_extension_intf _ _ _ _ _ _ _ _ _ Hs) in Hev
       end.
  all: try (split; [done|]).
  all: try match goal with tag : VersionTag |- _ => destruct tag end.
  all: first [ by eexists [_] | by eexists [_; _] | by eexists [_; _; _] ].
Qed.

(** C8.  For every call of a public method other than [Init], on every
    machine: the cached displays status after the call is the snapshot
    handed back, when the call is a [GetDisplaysStatus] that returns
    [kErrorNone], and is the cache as it was before in every other
    case (whether the method returns, throws or faults).  The error
    that [GetDisplaysStatus] returns is the error of the provider's
    query, and the snapshot is what that query wrote. *)
Theorem cache_written_only_by_GetDisplaysStatus req m r m' t :
  serve req m = (r, m', t) →
  hw_displays_info_ (this m') =
    match req, r with
    | ReqGetDisplaysStatus _, Returns (RepStatus kErrorNone snapshot) => snapshot
    | _, _ => hw_displays_info_ (this m)
    end ∧
  (∀ hw_displays_info error snapshot,
     req = ReqGetDisplaysStatus hw_displays_info →
     r = Returns (RepStatus error snapshot) →
     ∃ intf w,
       hw_info_intf_ (this m) = Some intf ∧
       HWInfo_GetDisplaysStatus intf hw_displays_info (world m)
         = (error, snapshot, w)).
Proof.
  destruct req as [[type|id] h l| | | | | | |]; cbn;
    unfold CreateDisplay, CreateDisplay_id, new_Display, CreateDisplay_init,
      DestroyDisplay, SetMaxBandwidthMode, GetFirstDisplayInterfaceType,
      GetDisplaysStatus, GetMaxDisplaysSupported, IsRotatorSupportedFormat,
      Deinit;
    unfold_monad; intros Hrun; (split; [|intros; simplify_eq/=]);
    revert Hrun; split_run; intros; simplify_eq/=; eauto.
Qed.

End Lifecycle.


(** ** Start-up and operation *)

(** Further proof steps: running the subsystem phase of [Init], finding
    an event in an explicit log, refuting its presence, and moving an
    event that is not of the extension-loading step to the subsystem
    phase. *)
Ltac run_subsystems :=
  unfold Init_subsystems, CleanupOnError; unfold_monad; split_run.

Ltac find_event :=
  repeat first [apply list_elem_of_here | apply list_elem_of_further].

Ltac no_event :=
  repeat intro; set_unfold; destruct_or?; by simplify_eq/=.

Ltac in_subsystems Hev Hext :=
  apply elem_of_app in Hev as [Hev|Hev];
  [by destruct (Hext _ Hev) as [?|[? ?]]|].

Section Startup.
Context {W : Type} `{Collaborators W}.
Implicit Types (m : Machine W) (t : list Event) (c : CoreImpl).

Lemma Init_subsystems_succeeds_iff m r m' t :
  Init_subsystems m = (r, m', t) →
  r = Returns kErrorNone ↔
  ∃ hw_res ext alloc sock, EvCompManagerInit hw_res ext alloc sock kErrorNone ∈ t.
Proof.
  run_subsystems; intros Hrun; simplify_eq/=.
  all: split; [intros; simplify_eq/=; try (eexists _, _, _, _; find_event; fail)
              |intros (? & ? & ? & ? & Hev); no_event].
Qed.

(** X1.  [Init] succeeds exactly when the composition manager has been
    initialised: no step after it can make [Init] fail. *)
Theorem Init_succeeds_iff_comp_manager_up m r m' t :
  Init m = (r, m', t) →
  r = Returns kErrorNone ↔
  ∃ hw_res ext alloc sock, EvCompManagerInit hw_res ext alloc sock kErrorNone ∈ t.
Proof.
  intros Hrun.
  destruct (Init_phases _ _ _ _ Hrun)
    as [(Hr & Hext)|(m0 & t0 & t1 & -> & Hsub & Hext & _)].
  - split.
    + intros ->. destruct Hr as [?|(? & ? & ?)]; by simplify_eq.
    + intros (? & ? & ? & ? & Hev). destruct (Hext _ Hev) as [?|[? ?]]; done.
  - rewrite (Init_subsystems_succeeds_iff _ _ _ _ Hsub). split.
    + intros (hw & ext & a & s & Hev). exists hw, ext, a, s.
      apply elem_of_app. by right.
    + intros (hw & ext & a & s & [Hev|Hev]%elem_of_app); [|by eauto 6].
      destruct (Hext _ Hev) as [?|[? ?]]; done.
Qed.

Lemma Init_subsystems_sequence m r m' t :
  Init_subsystems m = (r, m', t) →
  StronglySorted lt (omap init_step t) ∧
  Forall (λ n, 4 ≤ n)%nat (omap init_step t).
Proof.
  run_subsystems; intros Hrun; simplify_eq/=;
    (split; [repeat constructor; lia|repeat constructor]).
Qed.

(** X2.  The calls of [Init] follow the start-up sequence: library, create
    symbol, destroy symbol, factory, provider, resource info, composition
    manager, colour manager, displays status, signal policy, and the
    destruction of the provider on the cleanup path.  No step is made
    twice and none is made out of order. *)
Theorem Init_follows_startup_sequence m r m' t :
  Init m = (r, m', t) →
  StronglySorted lt (omap init_step t).
Proof.
  unfold Init, Sym. unfold_monad. split_run; intros Hrun; simplify_eq/=.
  all: try (repeat constructor; lia).
  all: match goal with
       | Hs : Init_subsystems _ = _ |- _ =>
           destruct (Init_subsystems_sequence _ _ _ _ Hs) as [Hsorted Hlate]
       end.
  all: repeat (apply SSorted_cons;
               [|repeat (constructor; [lia|]);
                 eapply Forall_impl; [exact Hlate|simpl; lia]]).
  all: exact Hsorted.
Qed.

(** What the extension-loading step leaves behind, in both ways it can
    end. *)
Lemma Init_extension_step m r m' t :
  Init m = (r, m', t) →
  ((∀ ev, ev ∈ t → extension_event ev = true ∨ ∃ msg, ev = EvLog LogE msg) ∧
   hw_info_intf_ (this m') = hw_info_intf_ (this m) ∧
   hw_displays_info_ (this m') = hw_displays_info_ (this m) ∧
   buffer_allocator_ (this m') = buffer_allocator_ (this m) ∧
   socket_handler_ (this m') = socket_handler_ (this m) ∧
   slots m' = slots m ∧
   ((r = Faults ∧ create_extension_intf_ (this m') = NULL ∧
     ∃ stored, EvDynLibSym CREATE_EXTENSION_INTERFACE_NAME true stored ∈ t ∧
               (stored = None ∨ stored = Some NULL)) ∨
    (r = Returns kErrorUndefined ∧
     ∃ name stored, EvDynLibSym name false stored ∈ t) ∨
    (∃ error fn tag written,
       r = Returns error ∧ error ≠ kErrorNone ∧
       EvCreateExtensionIntf fn tag error written ∈ t)))
  ∨
  (∃ m0 t0 t1,
     t = t0 ++ t1 ∧ Init_subsystems m0 = (r, m', t1) ∧
     (∀ ev, ev ∈ t0 → extension_event ev = true ∨ ∃ msg, ev = EvLog LogW msg) ∧
     hw_info_intf_ (this m0) = hw_info_intf_ (this m) ∧
     hw_displays_info_ (this m0) = hw_displays_info_ (this m) ∧
     buffer_allocator_ (this m0) = buffer_allocator_ (this m) ∧
     socket_handler_ (this m0) = socket_handler_ (this m) ∧
     hw_resource_ (this m0) = hw_resource_ (this m) ∧
     slots m0 = slots m ∧
     (∀ fn tag error p,
        EvCreateExtensionIntf fn tag error (Some p) ∈ t0 →
        extension_intf_ (this m0) = p)).
Proof.
  unfold Init, Sym. unfold_monad. split_run; intros Hrun; simplify_eq/=.
  all: repeat match goal with
       | Hb : negb ?b = _ |- _ => destruct b; try discriminate Hb; clear Hb
       end.
  all: try (left; split_and!; try done;
            [intros ev Hev; set_unfold; destruct_or?; simplify_eq/=; eauto
            |first [ left; split_and!;
                       [done|done|eexists; split; [find_event|by eauto]]
                   | right; left; split; [done|eexists _, _; find_event]
                   | right; right; eexists _, _, _, _;
                     split_and!; [done|done|find_event] ]]; fail).
  all: right; eexists _, _, _; (split; [|split; [eassumption|]]);
    [try reflexivity|].
  all: try (instantiate (1 := [_; _]); reflexivity).
  all: try (instantiate (1 := [_; _; _; _]); reflexivity).
  all: split_and!; try done;
    intros; set_unfold; destruct_or?; simplify_eq/=; eauto.
Qed.

(** What the subsystem phase never touches. *)
Lemma Init_subsystems_frame m r m' t :
  Init_subsystems m = (r, m', t) →
  buffer_allocator_ (this m') = buffer_allocator_ (this m) ∧
  socket_handler_ (this m') = socket_handler_ (this m) ∧
  extension_intf_ (this m') = extension_intf_ (this m) ∧
  slots m' = slots m ∧
  r ≠ Throws ∧
  (r ≠ Returns kErrorNone →
   hw_displays_info_ (this m') = hw_displays_info_ (this m)).
Proof.
  run_subsystems; intros Hrun; simplify_eq/=; split_and!; done.
Qed.

(** Where an error of the subsystem phase comes from. *)
Lemma Init_subsystems_error_origin m r m' t error :
  Init_subsystems m = (r, m', t) →
  r = Returns error → error ≠ kErrorNone →
  (∃ written, EvHWInfoCreate error written ∈ t) ∨
  (∃ intf written, EvHWGetHWResourceInfo intf error written ∈ t) ∨
  (∃ hw_res ext alloc sock, EvCompManagerInit hw_res ext alloc sock error ∈ t).
Proof.
  run_subsystems; intros Hrun Hr Herr; simplify_eq/=.
  all: first [ left; eexists; find_event; fail
             | right; left; eexists _, _; find_event; fail
             | right; right; eexists _, _, _, _; find_event ].
Qed.

(** The subsystem phase faults only on a provider pointer that is still
    null after a creation reported as successful. *)
Lemma Init_subsystems_fault m r m' t :
  Init_subsystems m = (r, m', t) →
  r = Faults →
  hw_info_intf_ (this m') = NULL ∧
  ∃ written, EvHWInfoCreate kErrorNone written ∈ t ∧
             (written = None ∨ written = Some NULL).
Proof.
  run_subsystems; intros Hrun Hr; simplify_eq/=.
  all: split; [done|]; eexists; split; [find_event|]; eauto.
Qed.

(** The subsystem phase, when it succeeds. *)
Lemma Init_subsystems_success m r m' t :
  Init_subsystems m = (r, m', t) →
  (EvSignalIgnoreSIGPIPE ∈ t ↔ r = Returns kErrorNone) ∧
  (r = Returns kErrorNone →
   last t = Some EvSignalIgnoreSIGPIPE ∧
   (∀ p, EvHWInfoDestroy p ∉ t) ∧
   ∃ intf error snapshot,
     hw_info_intf_ (this m') = Some intf ∧
     EvHWGetDisplaysStatus intf error snapshot ∈ t ∧
     hw_displays_info_ (this m') = snapshot).
Proof.
  run_subsystems; intros Hrun; simplify_eq/=.
  all: split; [split; [intros Hev; try done; no_event
                      |intros; simplify_eq/=; find_event]|].
  all: intros; simplify_eq/=.
  all: split; [done|]; split; [intros p Hev; no_event|].
  all: eexists _, _, _; split_and!; [done|find_event|done].
Qed.

(** The status query of the subsystem phase. *)
Lemma Init_subsystems_status m r m' t intf error snapshot :
  Init_subsystems m = (r, m', t) →
  EvHWGetDisplaysStatus intf error snapshot ∈ t →
  r = Returns kErrorNone ∧
  hw_displays_info_ (this m') = snapshot ∧
  hw_info_intf_ (this m') = Some intf ∧
  (error ≠ kErrorNone →
   EvLog LogW "Failed getting displays status. Error = %d" ∈ t).
Proof.
  run_subsystems; intros Hrun Hev; simplify_eq/=; set_unfold;
    destruct_or?; simplify_eq/=.
  all: split_and!; try done; intros; eauto 10.
Qed.

(** The subsystem phase when the provider cannot be created or cannot
    report its resources. *)
Lemma Init_subsystems_provider_failure m r m' t error :
  Init_subsystems m = (r, m', t) →
  (∃ written, EvHWInfoCreate error written ∈ t) ∨
  (∃ intf written, EvHWGetHWResourceInfo intf error written ∈ t) →
  error ≠ kErrorNone →
  r = Returns error ∧
  (∀ hw_res ext alloc sock e, EvCompManagerInit hw_res ext alloc sock e ∉ t) ∧
  match hw_info_intf_ (this m') with
  | Some intf => last t = Some (EvHWInfoDestroy (Some intf))
  | None => ∀ p, EvHWInfoDestroy p ∉ t
  end.
Proof.
  run_subsystems; intros Hrun Hev Herr; simplify_eq/=.
  all: destruct Hev as [(? & Hev)|(? & ? & Hev)]; set_unfold;
    destruct_or?; simplify_eq/=.
  all: split_and!; try done; intros; try no_event.
Qed.

(** What the subsystem phase hands to the composition manager. *)
Lemma Init_subsystems_dataflow m r m' t hw_res ext alloc sock error :
  Init_subsystems m = (r, m', t) →
  EvCompManagerInit hw_res ext alloc sock error ∈ t →
  alloc = buffer_allocator_ (this m) ∧
  sock = socket_handler_ (this m) ∧
  ext = extension_intf_ (this m) ∧
  hw_res = hw_resource_ (this m') ∧
  (∃ intf, hw_info_intf_ (this m') = Some intf ∧
           EvHWGetHWResourceInfo intf kErrorNone hw_res ∈ t) ∧
  (∀ hw_res' e, EvColorManagerInit hw_res' e ∈ t → hw_res' = hw_res).
Proof.
  run_subsystems; intros Hrun Hev; simplify_eq/=; set_unfold;
    destruct_or?; simplify_eq/=.
  all: split_and!; try done; [eexists; split; [done|]; set_unfold; eauto|].
  all: intros; destruct_or?; by simplify_eq/=.
Qed.


(** X3.  When [Init] succeeds: the signal policy is installed, as the last
    act (and only then is it installed); the provider is held in
    [hw_info_intf_] and has not been destroyed; and the cache holds what
    the provider's status query wrote, whether that query succeeded or
    not. *)
Theorem Init_success_postcondition m r m' t :
  Init m = (r, m', t) →
  (EvSignalIgnoreSIGPIPE ∈ t ↔ r = Returns kErrorNone) ∧
  (r = Returns kErrorNone →
   last t = Some EvSignalIgnoreSIGPIPE ∧
   (∀ p, EvHWInfoDestroy p ∉ t) ∧
   ∃ intf error snapshot,
     hw_info_intf_ (this m') = Some intf ∧
     EvHWGetDisplaysStatus intf error snapshot ∈ t ∧
     hw_displays_info_ (this m') = snapshot).
Proof.
  intros Hrun.
  destruct (Init_phases _ _ _ _ Hrun)
    as [(Hr & Hext)|(m0 & t0 & t1 & -> & Hsub & Hext & _)].
  - split; [split|].
    + intros Hev. by destruct (Hext _ Hev) as [?|[? ?]].
    + intros ->. destruct Hr as [?|(? & ? & ?)]; by simplify_eq.
    + intros ->. destruct Hr as [?|(? & ? & ?)]; by simplify_eq.
  - destruct (Init_subsystems_success _ _ _ _ Hsub) as [Hsig Hpost].
    split; [split|].
    + intros Hev. in_subsystems Hev Hext. by apply Hsig.
    + intros Hr. apply elem_of_app. right. by apply Hsig.
    + intros Hr.
      destruct (Hpost Hr) as (Hlast & Hkept & intf & e & snap & ? & ? & ?).
      split_and!.
      * destruct t1 as [|ev t1]; [done|]. by rewrite last_app_cons.
      * intros p Hev. in_subsystems Hev Hext. by eapply Hkept.
      * exists intf, e, snap. split_and!; [done| |done].
        apply elem_of_app. by right.
Qed.

(** X4.  A failing status query during [Init] is not fatal: a warning is
    logged, [Init] returns [kErrorNone], and the cache holds whatever the
    provider left in the structure it was handed. *)
Theorem Init_status_failure_tolerated m r m' t intf error snapshot :
  Init m = (r, m', t) →
  EvHWGetDisplaysStatus intf error snapshot ∈ t →
  error ≠ kErrorNone →
  r = Returns kErrorNone ∧
  EvLog LogW "Failed getting displays status. Error = %d" ∈ t ∧
  hw_displays_info_ (this m') = snapshot ∧
  hw_info_intf_ (this m') = Some intf.
Proof.
  intros Hrun Hev Herr.
  destruct (Init_phases _ _ _ _ Hrun)
    as [(Hr & Hext)|(m0 & t0 & t1 & -> & Hsub & Hext & _)].
  { by destruct (Hext _ Hev) as [?|[? ?]]. }
  in_subsystems Hev Hext.
  destruct (Init_subsystems_status _ _ _ _ _ _ _ Hsub Hev)
    as (-> & Hcache & Hintf & Hlog).
  split_and!; try done. apply elem_of_app. right. by apply Hlog.
Qed.

(** X5.  Every error that [Init] returns is either [kErrorUndefined], after an
    entry point of the extension library failed to resolve, or the error
    that a collaborator has just reported: the extension factory, the
    creation of the provider, its resource query, or the composition
    manager.  No exception leaves [Init]. *)
Theorem Init_error_origin m r m' t :
  Init m = (r, m', t) →
  r ≠ Throws ∧
  ∀ error, r = Returns error → error ≠ kErrorNone →
    (error = kErrorUndefined ∧ ∃ name stored, EvDynLibSym name false stored ∈ t) ∨
    (∃ fn tag written, EvCreateExtensionIntf fn tag error written ∈ t) ∨
    (∃ written, EvHWInfoCreate error written ∈ t) ∨
    (∃ intf written, EvHWGetHWResourceInfo intf error written ∈ t) ∨
    (∃ hw_res ext alloc sock, EvCompManagerInit hw_res ext alloc sock error ∈ t).
Proof.
  intros Hrun.
  destruct (Init_extension_step _ _ _ _ Hrun)
    as [(_ & _ & _ & _ & _ & _ & Hend)|(m0 & t0 & t1 & -> & Hsub & _)].
  - split.
    { destruct Hend as [(-> & _)|[(-> & _)|(e & ? & ? & ? & -> & _)]]; done. }
    intros error -> Herr.
    destruct Hend as [(? & _)|[(? & Hsym)|(e & fn & tag & wr & ? & _ & Hev)]];
      simplify_eq; eauto 10.
  - split; [by destruct (Init_subsystems_frame _ _ _ _ Hsub) as (_&_&_&_&?&_)|].
    intros error Hr Herr.
    destruct (Init_subsystems_error_origin _ _ _ _ _ Hsub Hr Herr)
      as [(? & Hev)|[(? & ? & Hev)|(? & ? & ? & ? & Hev)]];
      do 2 right; [left|right; left|right; right];
      repeat eexists; apply elem_of_app; right; exact Hev.
Qed.

(** X6.  [Init] never writes a caller's slot and never changes the allocator
    and socket handler given to the constructor; and an [Init] that does
    not succeed leaves the cached displays status as it found it. *)
Theorem Init_frame m r m' t :
  Init m = (r, m', t) →
  slots m' = slots m ∧
  buffer_allocator_ (this m') = buffer_allocator_ (this m) ∧
  socket_handler_ (this m') = socket_handler_ (this m) ∧
  (r ≠ Returns kErrorNone →
   hw_displays_info_ (this m') = hw_displays_info_ (this m)).
Proof.
  intros Hrun.
  destruct (Init_extension_step _ _ _ _ Hrun)
    as [(_ & _ & ? & ? & ? & ? & _)
       |(m0 & t0 & t1 & -> & Hsub & _ & _ & Hc & Ha & Hs & _ & Hsl & _)];
    [done|].
  destruct (Init_subsystems_frame _ _ _ _ Hsub) as (? & ? & _ & ? & _ & Hcache).
  split_and!; [congruence..|]. intros Hr. rewrite <- Hc. by apply Hcache.
Qed.

(** X7.  When the provider cannot be created, or cannot report its resources,
    [Init] returns that error without initialising the composition
    manager; it ends by destroying the provider when [hw_info_intf_]
    holds one, and destroys nothing when it holds none. *)
Theorem Init_provider_failure m r m' t error :
  Init m = (r, m', t) →
  (∃ written, EvHWInfoCreate error written ∈ t) ∨
  (∃ intf written, EvHWGetHWResourceInfo intf error written ∈ t) →
  error ≠ kErrorNone →
  r = Returns error ∧
  (∀ hw_res ext alloc sock e, EvCompManagerInit hw_res ext alloc sock e ∉ t) ∧
  match hw_info_intf_ (this m') with
  | Some intf => last t = Some (EvHWInfoDestroy (Some intf))
  | None => ∀ p, EvHWInfoDestroy p ∉ t
  end.
Proof.
  intros Hrun Hev Herr.
  destruct (Init_phases _ _ _ _ Hrun)
    as [(Hr & Hext)|(m0 & t0 & t1 & -> & Hsub & Hext & _)].
  { destruct Hev as [(? & Hev)|(? & ? & Hev)];
      by destruct (Hext _ Hev) as [?|[? ?]]. }
  assert ((∃ written, EvHWInfoCreate error written ∈ t1) ∨
          (∃ intf written, EvHWGetHWResourceInfo intf error written ∈ t1)) as Hev1.
  { destruct Hev as [(? & Hev)|(? & ? & Hev)]; in_subsystems Hev Hext; eauto. }
  destruct (Init_subsystems_provider_failure _ _ _ _ _ Hsub Hev1 Herr)
    as (-> & Hnocomp & Hdestroy).
  split_and!; [done| |].
  - intros ????? Hc. in_subsystems Hc Hext. by eapply Hnocomp.
  - destruct (hw_info_intf_ (this m')) as [intf|].
    + destruct t1 as [|ev t1]; [done|]. by rewrite last_app_cons.
    + intros p Hd. in_subsystems Hd Hext. by eapply Hdestroy.
Qed.

(** X8.  [Init] dereferences no null pointer as long as the collaborators that
    report success have stored a non-null pointer: the loader for the
    create entry point, and the creation of the provider. *)
Theorem Init_null_safe m r m' t :
  Init m = (r, m', t) →
  (∀ stored, EvDynLibSym CREATE_EXTENSION_INTERFACE_NAME true stored ∈ t →
             ∃ fn, stored = Some (Some fn)) →
  (∀ written, EvHWInfoCreate kErrorNone written ∈ t →
              ∃ intf, written = Some (Some intf)) →
  r ≠ Faults.
Proof.
  intros Hrun Hsym Hcreate ->.
  destruct (Init_extension_step _ _ _ _ Hrun)
    as [(_ & _ & _ & _ & _ & _ & Hend)|(m0 & t0 & t1 & -> & Hsub & _)].
  - destruct Hend
      as [(_ & _ & stored & Hev & Hbad)|[(? & _)|(? & ? & ? & ? & ? & _)]];
      try done.
    destruct (Hsym _ Hev) as (fn & ->). by destruct Hbad.
  - destruct (Init_subsystems_fault _ _ _ _ Hsub eq_refl)
      as (_ & written & Hev & Hbad).
    destruct (Hcreate written) as (intf & ->).
    { apply elem_of_app. by right. }
    by destruct Hbad.
Qed.

(** X9.  What [Init] hands to the composition manager: the allocator and the
    socket handler given to the constructor, the extension interface the
    core holds, and the resource info that the provider has just
    reported with success; the colour manager is handed the same
    resource info. *)
Theorem Init_dataflow m r m' t hw_res ext alloc sock error :
  Init m = (r, m', t) →
  EvCompManagerInit hw_res ext alloc sock error ∈ t →
  alloc = buffer_allocator_ (this m) ∧
  sock = socket_handler_ (this m) ∧
  ext = extension_intf_ (this m') ∧
  (∀ fn tag e p, EvCreateExtensionIntf fn tag e (Some p) ∈ t → ext = p) ∧
  hw_res = hw_resource_ (this m') ∧
  (∃ intf, hw_info_intf_ (this m') = Some intf ∧
           EvHWGetHWResourceInfo intf kErrorNone hw_res ∈ t) ∧
  (∀ hw_res' e, EvColorManagerInit hw_res' e ∈ t → hw_res' = hw_res).
Proof.
  intros Hrun Hev.
  destruct (Init_extension_step _ _ _ _ Hrun)
    as [(Hext & _)
       |(m0 & t0 & t1 & -> & Hsub & Hext & _ & _ & Ha & Hs & _ & _ & Hfac)].
  { by destruct (Hext _ Hev) as [?|[? ?]]. }
  in_subsystems Hev Hext.
  destruct (Init_subsystems_dataflow _ _ _ _ _ _ _ _ _ Hsub Hev)
    as (-> & -> & -> & -> & (intf & Hintf & Hres) & Hcolor).
  destruct (Init_subsystems_frame _ _ _ _ Hsub) as (_ & _ & Hx & _).
  split_and!; try done.
  - intros fn tag e p [Hf|Hf]%elem_of_app.
    + by rewrite (Hfac _ _ _ _ Hf).
    + by apply (Init_subsystems_events _ _ _ _ _ Hsub) in Hf.
  - exists intf. split; [done|]. apply elem_of_app. by right.
  - intros hw' e' Hc. in_subsystems Hc Hext. by eapply Hcolor.
Qed.

End Startup.

Section Operation.
Context {W : Type} `{Collaborators W}.
Implicit Types (m : Machine W) (t : list Event) (c : CoreImpl).

Ltac run_serve :=
  unfold CreateDisplay, CreateDisplay_id, new_Display, CreateDisplay_init,
    DestroyDisplay, SetMaxBandwidthMode, GetFirstDisplayInterfaceType,
    GetDisplaysStatus, GetMaxDisplaysSupported, IsRotatorSupportedFormat,
    Deinit;
  unfold_monad; split_run.

(** One call of a public method other than [Init]: what it leaves alone
    and when it can fault. *)
Lemma serve_invariant req m r m' t :
  serve req m = (r, m', t) →
  hw_info_intf_ (this m') = hw_info_intf_ (this m) ∧
  (r = Faults → needs_provider req = true ∧ hw_info_intf_ (this m) = NULL) ∧
  hw_displays_info_ (this m') =
    match r with
    | Returns (RepStatus kErrorNone snapshot) => snapshot
    | _ => hw_displays_info_ (this m)
    end.
Proof.
  destruct req as [[type|id] [h|] [l|]| | | | | | |]; cbn; run_serve;
    intros Hrun; simplify_eq/=; split_and!; try done.
Qed.

(** X10.  After a successful [Init], [Deinit] tears the subsystems down in the
    reverse order of their initialisation: colour manager, composition
    manager, then the provider, which is the one [Init] left in
    [hw_info_intf_] and which [Init] itself has not destroyed.  [Deinit]
    returns [kErrorNone] and changes no field: [hw_info_intf_] still
    holds the address of the destroyed provider. *)
Theorem Init_then_Deinit m m1 t1 :
  Init m = (Returns kErrorNone, m1, t1) →
  ∃ intf,
    hw_info_intf_ (this m1) = Some intf ∧
    (∀ p, EvHWInfoDestroy p ∉ t1) ∧
    Deinit m1 =
      (Returns kErrorNone,
       Build_Machine (this m1)
         (HWInfoInterface_Destroy (Some intf)
            (CompManager_Deinit (ColorManagerProxy_Deinit (world m1))))
         (slots m1),
       [EvColorManagerDeinit; EvCompManagerDeinit; EvHWInfoDestroy (Some intf)]).
Proof.
  intros Hrun.
  destruct (Init_phases _ _ _ _ Hrun)
    as [(Hr & _)|(m0 & t0 & t1' & -> & Hsub & Hext & _)].
  { destruct Hr as [?|(? & ? & ?)]; by simplify_eq. }
  destruct (Init_subsystems_success _ _ _ _ Hsub) as [_ Hpost].
  destruct (Hpost eq_refl) as (_ & Hkept & intf & _ & _ & Hintf & _).
  exists intf. split_and!; [done| |].
  - intros p [Hev|Hev]%elem_of_app; [|by eapply Hkept].
    by destruct (Hext _ Hev) as [?|[? ?]].
  - unfold Deinit. unfold_monad. cbn. by rewrite Hintf.
Qed.



(** X13.  Over any sequence of calls of public methods that all return, the
    cached displays status ends up as the snapshot of the last status
    query that succeeded, or as it was at the start when none did. *)
Theorem serve_all_cache reqs m reps m' t :
  serve_all reqs m = (Returns reps, m', t) →
  hw_displays_info_ (this m') = last_snapshot (hw_displays_info_ (this m)) reps.
Proof.
  revert m reps m' t. induction reqs as [|req reqs IH]; intros m reps m' t.
  { cbn. unfold ret. intros; by simplify_eq. }
  cbn. unfold bind at 1.
  destruct (serve req m) as [[r1 m1] t1] eqn:Hserve.
  destruct (serve_invariant _ _ _ _ _ Hserve) as (_ & _ & Hcache).
  destruct r1 as [rep| |]; [|intros; by simplify_eq/=..].
  unfold bind at 1.
  destruct (serve_all reqs m1) as [[r2 m2] t2] eqn:Hrest.
  destruct r2 as [reps2| |]; unfold ret; intros; simplify_eq/=.
  rewrite (IH _ _ _ _ Hrest), Hcache. unfold last_snapshot.
  by destruct rep as [|[] ?|].
Qed.

(** X14.  No public method other than [Init] writes a field of the core other
    than the cached displays status: the pointers to the allocator, the
    socket handler, the extension entry points and interface and the
    provider, and the resource info, are as before the call. *)
Theorem serve_fields_frame req m r m' t :
  serve req m = (r, m', t) →
  this m' = set_hw_displays_info_ (hw_displays_info_ (this m')) (this m).
Proof.
  destruct m as [[] w s].
  destruct req as [[type|id] [h|] [l|]| | | | | | |]; cbn; run_serve;
    intros Hrun; by simplify_eq/=.
Qed.

(** X15.  A caller's slot changes only in a [CreateDisplay] that returns
    [kErrorNone], and then it is the slot passed as [intf], which
    receives the object that has just been initialised. *)
Theorem serve_slots_frame req m r m' t l :
  serve req m = (r, m', t) →
  slots m' !! l ≠ slots m !! l →
  ∃ sel event_handler object,
    req = ReqCreateDisplay sel event_handler (Some l) ∧
    r = Returns (RepError kErrorNone) ∧
    slots m' !! l = Some (Some object) ∧
    EvDisplayInit object kErrorNone ∈ t.
Proof.
  destruct req as [[type|id] [h|] [l'|]| | | | | | |]; cbn; run_serve;
    intros Hrun Hslot; simplify_eq/=; try done.
  all: destruct (decide (l' = l)) as [->|Hne];
    [|by rewrite lookup_insert_ne in Hslot].
  all: eexists _, _, _; split_and!; [done|done|by rewrite lookup_insert_eq|].
  all: find_event.
Qed.

(** X16.  What [CreateDisplay] constructs: one of the three variants, the one
    asked for (first overload) or the one cached for the id (second
    overload); with the caller's event handler, the core's provider and
    allocator; bound to the id in the second overload and to no id in the
    first.  Nothing is constructed when the handler or [intf] is null. *)
Theorem CreateDisplay_constructor_arguments sel event_handler intf m r m' t
    variant display_id handler hw_info alloc object :
  CreateDisplay_either sel event_handler intf m = (r, m', t) →
  EvNewDisplay variant display_id handler hw_info alloc object ∈ t →
  selected_type sel (this m) = Some variant ∧
  is_display_variant variant ∧
  display_id = selected_id sel ∧
  handler = event_handler ∧
  hw_info = hw_info_intf_ (this m) ∧
  alloc = buffer_allocator_ (this m) ∧
  event_handler ≠ NULL ∧ intf ≠ NULL ∧
  t !! 0%nat = Some (EvNewDisplay variant display_id handler hw_info alloc object).
Proof.
  unfold is_display_variant.
  destruct sel as [type|id], event_handler as [h|], intf as [l|]; cbn;
    unfold CreateDisplay, CreateDisplay_id, new_Display, CreateDisplay_init;
    unfold_monad; cbn; split_run; intros Hrun Hev; simplify_eq/=;
    set_unfold; destruct_or?; simplify_eq/=.
  all: match goal with
       | Hc : ?x = Some _ |- context [?x] => rewrite Hc; cbn
       | _ => idtac
       end.
  all: match goal with
       | Hd : display_type _ = _ |- _ => rewrite Hd
       | _ => idtac
       end.
  all: split_and!; eauto.
Qed.

(** X17.  When the allocation of the display object fails, [CreateDisplay] is
    left by the exception at once: the object's [Init] is not called,
    nothing is deleted, no slot is written and no field changes. *)
Theorem CreateDisplay_allocation_failure sel event_handler intf m r m' t
    variant display_id handler hw_info alloc :
  CreateDisplay_either sel event_handler intf m = (r, m', t) →
  EvNewDisplay variant display_id handler hw_info alloc None ∈ t →
  r = Throws ∧
  t = [EvNewDisplay variant display_id handler hw_info alloc None] ∧
  this m' = this m ∧
  slots m' = slots m.
Proof.
  destruct sel as [type|id], event_handler as [h|], intf as [l|]; cbn;
    unfold CreateDisplay, CreateDisplay_id, new_Display, CreateDisplay_init;
    unfold_monad; cbn; split_run; intros Hrun Hev; simplify_eq/=;
    set_unfold; destruct_or?; by simplify_eq/=.
Qed.

(** X18.  The cache is replaced by the snapshot, not merged with it: after a
    status query that succeeded, [CreateDisplay] by id takes the
    unknown-id exit exactly for the ids that the returned snapshot does
    not hold, whatever was cached before. *)
Theorem snapshot_decides_lookup hw_displays_info m snapshot m1 t1
    display_id event_handler intf :
  GetDisplaysStatus hw_displays_info m = (Returns (kErrorNone, snapshot), m1, t1) →
  event_handler ≠ NULL →
  intf ≠ NULL →
  CreateDisplay_id display_id event_handler intf m1 =
    (Returns kErrorParameters, m1, [EvLog LogE "Spurious display id %d"])
  ↔ snapshot !! display_id = None.
Proof.
  intros Hstatus Hh Hl.
  assert (hw_displays_info_ (this m1) = snapshot) as Hcache.
  { revert Hstatus. unfold GetDisplaysStatus. unfold_monad.
    split_run; close_run. }
  destruct event_handler as [h|], intf as [l|]; try done.
  split; [|intros Hmiss; apply CreateDisplay_id_miss; congruence].
  unfold CreateDisplay_id, new_Display, CreateDisplay_init. unfold_monad. cbn.
  rewrite Hcache. split_run; intros; by simplify_eq/=.
Qed.

(** X19.  Creation followed by destruction: when [CreateDisplay] has returned
    [kErrorNone], the caller's slot holds the object that was constructed
    and initialised, and [DestroyDisplay] on that handle shuts down and
    deletes that same object and returns [kErrorNone].  The fields of the
    core are as before the creation; the caller's slot still holds the
    address of the deleted object. *)
Theorem CreateDisplay_then_DestroyDisplay sel event_handler l m m1 t1 :
  CreateDisplay_either sel event_handler (Some l) m = (Returns kErrorNone, m1, t1) →
  ∃ object,
    slots m1 !! l = Some (Some object) ∧
    EvDisplayInit object kErrorNone ∈ t1 ∧
    ∀ error w,
      DisplayBase_Deinit object (world m1) = (error, w) →
      DestroyDisplay (slots m1 !!! l) m1 =
        (Returns kErrorNone,
         Build_Machine (this m) (Display_delete object w) (slots m1),
         [EvDisplayDeinit object error; EvDeleteDisplay object]).
Proof.
  destruct sel as [type|id], event_handler as [h|]; cbn;
    unfold CreateDisplay, CreateDisplay_id, new_Display, CreateDisplay_init;
    unfold_monad; cbn; split_run; intros Hrun; simplify_eq/=.
  all: eexists; split_and!; [by rewrite lookup_insert_eq|find_event|].
  all: intros error w' Hdeinit; unfold DestroyDisplay; unfold_monad; cbn.
  all: rewrite lookup_total_insert_eq; cbn; by rewrite Hdeinit.
Qed.

(** X20.  [DestroyDisplay] returns [kErrorParameters] exactly for the null
    handle, and then it has called nothing; for every other handle it
    calls the object's [Deinit] first and deletes the object next.  It
    writes no field and no caller's slot. *)
Theorem DestroyDisplay_null_iff intf m r m' t :
  DestroyDisplay intf m = (r, m', t) →
  (r = Returns kErrorParameters ↔ intf = NULL) ∧
  (intf = NULL → m' = m ∧ t = []) ∧
  (∀ object, intf = Some object →
     ∃ error, t = [EvDisplayDeinit object error; EvDeleteDisplay object]) ∧
  this m' = this m ∧
  slots m' = slots m.
Proof.
  unfold DestroyDisplay. unfold_monad.
  destruct intf as [object|]; split_run; intros Hrun; simplify_eq/=.
  - split_and!; [by split|done|intros; simplify_eq; by eexists|done|done].
  - split_and!; [by split|done|done|done|done].
Qed.

End Operation.

(** * Scenarios

    The theorems above, run on the scripted platforms. *)

(** C1, counterexample.  The composition manager fails, [Init] returns
    its error after destroying the provider, and the core, which has not
    been initialised, still creates a built-in display: the object is
    constructed on the destroyed provider, initialises, and is stored in
    the caller's slot 6. *)
Lemma CreateDisplay_after_failed_Init :
  let failed := Init (boot comp_manager_down) in
  result_of failed = Returns (kErrorOther 3) ∧
  EvCompManagerInit 5 (Some 13%positive) (Some 1%positive) (Some 2%positive)
    (kErrorOther 3) ∈ events_of failed ∧
  EvHWInfoDestroy (Some 20%positive) ∈ events_of failed ∧
  CreateDisplay kBuiltIn (Some 5%positive) (Some 6%positive) (machine_of failed) =
    (Returns kErrorNone,
     Build_Machine (this (machine_of failed)) comp_manager_down
       {[6%positive := Some 40%positive]},
     [EvNewDisplay kBuiltIn None (Some 5%positive) (Some 20%positive)
        (Some 1%positive) (Some 40%positive);
      EvDisplayInit 40%positive kErrorNone]).
Proof.
  vm_compute. split_and!; try reflexivity; repeat constructor.
Qed.

(** C1, witness: the same failed [Init], and the id overload on the
    resulting core. *)
Lemma Init_comp_manager_failure_witness :
  let failed := Init (boot comp_manager_down) in
  result_of failed = Returns (kErrorOther 3) ∧
  hw_displays_info_ (this (machine_of failed)) = ∅ ∧
  CreateDisplay_id 0 (Some 5%positive) (Some 6%positive) (machine_of failed) =
    (Returns kErrorParameters, machine_of failed,
     [EvLog LogE "Spurious display id %d"]).
Proof.
  intros failed.
  assert (EvCompManagerInit 5 (Some 13%positive) (Some 1%positive)
            (Some 2%positive) (kErrorOther 3) ∈ events_of failed) as Hev.
  { vm_compute. repeat constructor. }
  assert (kErrorOther 3 ≠ kErrorNone) as Herr by discriminate.
  assert (Init (boot comp_manager_down)
          = (result_of failed, machine_of failed, events_of failed)) as Hrun
    by (vm_compute; reflexivity).
  destruct (Init_comp_manager_failure (boot comp_manager_down) _ _ _ _ _ _ _ _
              Hrun Hev Herr) as (Hr & _ & Hcache & Hid & _).
  split; [exact Hr|]. split; [exact Hcache|].
  apply Hid; [discriminate|discriminate|reflexivity].
Defined.

(** C2, witness.  On a platform whose display objects fail to initialise,
    the built-in display is constructed, fails, is deleted, and the caller
    gets the object's error with its slot untouched; on the healthy
    platform display 1 is constructed and handed out. *)
Lemma CreateDisplay_init_protocol_witness :
  let failing := replug display_init_out_of_memory running in
  let refused := CreateDisplay kBuiltIn (Some 5%positive) (Some 6%positive) failing in
  let created := CreateDisplay_id 1 (Some 5%positive) (Some 6%positive) running in
  (result_of refused = Returns kErrorMemory ∧
   slots (machine_of refused) = slots failing ∧
   events_of refused =
     [EvNewDisplay kBuiltIn None (Some 5%positive) (Some 20%positive)
        (Some 1%positive) (Some 40%positive);
      EvDisplayInit 40%positive kErrorMemory;
      EvDeleteDisplay 40%positive]) ∧
  (result_of created = Returns kErrorNone ∧
   slots (machine_of created) = <[6%positive := Some 40%positive]> (slots running)).
Proof.
  intros failing refused created. split.
  - assert (CreateDisplay_either (ByType kBuiltIn) (Some 5%positive)
              (Some 6%positive) failing
            = (result_of refused, machine_of refused, events_of refused)) as Hrun
      by (vm_compute; reflexivity).
    assert (EvNewDisplay kBuiltIn None (Some 5%positive) (Some 20%positive)
              (Some 1%positive) (Some 40%positive) ∈ events_of refused) as Hev.
    { vm_compute. repeat constructor. }
    destruct (CreateDisplay_init_protocol _ _ _ _ _ _ _ _ _ _ _ _ _ Hrun Hev)
      as (error & w1 & w2 & Hnew & Hinit & _ & Hcase).
    vm_compute in Hnew. vm_compute in Hinit.
    injection Hnew as <-. injection Hinit as <- <-.
    destruct (decide (kErrorMemory = kErrorNone)) as [Heq|_]; [discriminate Heq|].
    destruct Hcase as (Hr & Hslots & _ & Ht). by split_and!.
  - assert (CreateDisplay_either (ById 1) (Some 5%positive) (Some 6%positive) running
            = (result_of created, machine_of created, events_of created)) as Hrun
      by (vm_compute; reflexivity).
    assert (EvNewDisplay kPluggable (Some 1) (Some 5%positive) (Some 20%positive)
              (Some 1%positive) (Some 40%positive) ∈ events_of created) as Hev.
    { vm_compute. repeat constructor. }
    destruct (CreateDisplay_init_protocol _ _ _ _ _ _ _ _ _ _ _ _ _ Hrun Hev)
      as (error & w1 & w2 & Hnew & Hinit & _ & Hcase).
    vm_compute in Hnew. vm_compute in Hinit.
    injection Hnew as <-. injection Hinit as <- <-.
    destruct (decide (kErrorNone = kErrorNone)) as [_|Hne]; [|by destruct Hne].
    destruct Hcase as (Hr & (l & Hl & Hslots) & _). injection Hl as <-.
    by split.
Defined.

(** C3, witness.  Display 9 is plugged in after [Init]; a status query
    returns it, and [CreateDisplay(9, ...)] then finds it and constructs
    the virtual display bound to id 9. *)
Lemma CreateDisplay_id_after_status_witness :
  let queried := GetDisplaysStatus ∅ stale in
  let created := CreateDisplay_id 9 (Some 5%positive) (Some 6%positive) (machine_of queried) in
  result_of queried = Returns (kErrorNone, hotplugged_status) ∧
  hw_displays_info_ (this (machine_of queried)) !! 9
    = Some {| display_type := kVirtual; is_connected := true |} ∧
  EvLog LogE "Spurious display id %d" ∉ events_of created.
Proof.
  intros queried created.
  assert (GetDisplaysStatus ∅ stale
          = (Returns (kErrorNone, hotplugged_status), machine_of queried,
             events_of queried)) as Hstatus by (vm_compute; reflexivity).
  assert (hotplugged_status !! 9
          = Some {| display_type := kVirtual; is_connected := true |}) as Hin
    by reflexivity.
  assert (Some 5%positive ≠ NULL) as Hh by discriminate.
  assert (Some 6%positive ≠ NULL) as Hl by discriminate.
  assert (CreateDisplay_id 9 (Some 5%positive) (Some 6%positive) (machine_of queried)
          = (result_of created, machine_of created, events_of created)) as Hrun
    by (vm_compute; reflexivity).
  destruct (CreateDisplay_id_after_status _ _ _ _ _ _ _ _ _ _ _ _
              Hstatus Hin Hh Hl Hrun) as (Hhit & Hlog & _).
  split; [by vm_compute|]. by split.
Defined.

(** C4, witness.  The hardware has display 9 by now, the cache has not
    been refreshed: [CreateDisplay(9, ...)] is rejected. *)
Lemma CreateDisplay_id_unknown_witness :
  (s_displays_status (world stale)).2 !! 9
    = Some {| display_type := kVirtual; is_connected := true |} ∧
  CreateDisplay_id 9 (Some 5%positive) (Some 6%positive) stale =
    (Returns kErrorParameters, stale, [EvLog LogE "Spurious display id %d"]).
Proof.
  split; [reflexivity|].
  apply (CreateDisplay_id_unknown 9 (Some 5%positive) (Some 6%positive)
           (this stale) (world stale) (slots stale));
    [discriminate|discriminate|reflexivity].
Defined.

(** C5, witness: a null handler, a null [out], a spurious type. *)
Lemma CreateDisplay_rejects_bad_arguments_witness :
  (∃ t, CreateDisplay kBuiltIn NULL (Some 6%positive) running
        = (Returns kErrorParameters, running, t) ∧
        (t = [] ∨ t = [EvLog LogE "Spurious display type %d"])) ∧
  (∃ t, CreateDisplay kVirtual (Some 5%positive) NULL running
        = (Returns kErrorParameters, running, t) ∧
        (t = [] ∨ t = [EvLog LogE "Spurious display type %d"])) ∧
  (∃ t, CreateDisplay (kDisplayTypeOther 3) (Some 5%positive) (Some 6%positive) running
        = (Returns kErrorParameters, running, t) ∧
        (t = [] ∨ t = [EvLog LogE "Spurious display type %d"])).
Proof.
  split_and!.
  - apply CreateDisplay_rejects_bad_arguments. left. reflexivity.
  - apply CreateDisplay_rejects_bad_arguments. right. left. reflexivity.
  - apply CreateDisplay_rejects_bad_arguments. right. right.
    intros [Hv|[Hv|Hv]]; discriminate Hv.
Defined.

(** C6, witness: the three ways the extension-loading step can go wrong.
    Without the library [Init] succeeds, and the composition manager is
    initialised without an extension interface; without the destroy
    entry point [Init] stops with [kErrorUndefined]; when the factory
    fails [Init] stops with the factory's error. *)
Lemma Init_extension_loading_witness :
  let bare := Init (boot no_extension_library) in
  let broken := Init (boot no_destroy_symbol) in
  let refused := Init (boot extension_factory_fails) in
  (result_of bare = Returns kErrorNone ∧
   EvCompManagerInit 5 NULL (Some 1%positive) (Some 2%positive) kErrorNone
     ∈ events_of bare) ∧
  (result_of broken = Returns kErrorUndefined ∧
   ∃ pre, events_of broken =
     pre ++ [EvDynLibSym DESTROY_EXTENSION_INTERFACE_NAME false (Some NULL);
             EvLog LogE "Unable to load symbols, error = %s"]) ∧
  (result_of refused = Returns (kErrorOther 2) ∧
   ∃ pre, events_of refused =
     pre ++ [EvCreateExtensionIntf 11%positive EXTENSION_VERSION_TAG
               (kErrorOther 2) None;
             EvLog LogE "Unable to create interface"]).
Proof.
  intros bare broken refused. split_and!.
  - reflexivity.
  - assert (Init (boot no_extension_library)
            = (result_of bare, machine_of bare, events_of bare)) as Hrun
      by (vm_compute; reflexivity).
    destruct (Init_extension_loading _ _ _ _ Hrun) as (Hmissing & _ & _).
    assert (EvDynLibOpen EXTENSION_LIBRARY_NAME false ∈ events_of bare) as Hev.
    { vm_compute. repeat constructor. }
    destruct (Hmissing Hev) as ((w & t1 & _ & Ht & Hsub) & Hext).
    assert (EvCompManagerInit 5 NULL (Some 1%positive) (Some 2%positive) kErrorNone
              ∈ events_of bare) as Hcomp.
    { vm_compute. repeat constructor. }
    exact Hcomp.
  - assert (Init (boot no_destroy_symbol)
            = (result_of broken, machine_of broken, events_of broken)) as Hrun
      by (vm_compute; reflexivity).
    destruct (Init_extension_loading _ _ _ _ Hrun) as (_ & Hsym & _).
    assert (EvDynLibSym DESTROY_EXTENSION_INTERFACE_NAME false (Some NULL)
              ∈ events_of broken) as Hev.
    { vm_compute. repeat constructor. }
    exact (proj1 (Hsym _ _ Hev)).
  - assert (Init (boot no_destroy_symbol)
            = (result_of broken, machine_of broken, events_of broken)) as Hrun
      by (vm_compute; reflexivity).
    destruct (Init_extension_loading _ _ _ _ Hrun) as (_ & Hsym & _).
    assert (EvDynLibSym DESTROY_EXTENSION_INTERFACE_NAME false (Some NULL)
              ∈ events_of broken) as Hev.
    { vm_compute. repeat constructor. }
    exact (proj2 (Hsym _ _ Hev)).
  - assert (Init (boot extension_factory_fails)
            = (result_of refused, machine_of refused, events_of refused)) as Hrun
      by (vm_compute; reflexivity).
    destruct (Init_extension_loading _ _ _ _ Hrun) as (_ & _ & Hfactory).
    assert (EvCreateExtensionIntf 11%positive EXTENSION_VERSION_TAG
              (kErrorOther 2) None ∈ events_of refused) as Hev.
    { vm_compute. repeat constructor. }
    assert (kErrorOther 2 ≠ kErrorNone) as Herr by discriminate.
    exact (proj1 (Hfactory _ _ _ _ Hev Herr)).
  - assert (Init (boot extension_factory_fails)
            = (result_of refused, machine_of refused, events_of refused)) as Hrun
      by (vm_compute; reflexivity).
    destruct (Init_extension_loading _ _ _ _ Hrun) as (_ & _ & Hfactory).
    assert (EvCreateExtensionIntf 11%positive EXTENSION_VERSION_TAG
              (kErrorOther 2) None ∈ events_of refused) as Hev.
    { vm_compute. repeat constructor. }
    assert (kErrorOther 2 ≠ kErrorNone) as Herr by discriminate.
    exact (proj2 (Hfactory _ _ _ _ Hev Herr)).
Defined.

(** C7, witness.  The colour manager fails, [Init] succeeds, and the
    built-in display can be created on the resulting core. *)
Lemma Init_color_manager_failure_witness :
  let degraded := Init (boot color_manager_down) in
  result_of degraded = Returns kErrorNone ∧
  EvLog LogW "Unable creating color manager and continue without it."
    ∈ events_of degraded ∧
  result_of (CreateDisplay_either (ById 0) (Some 5%positive) (Some 6%positive)
               (machine_of degraded)) = Returns kErrorNone.
Proof.
  intros degraded.
  assert (Init (boot color_manager_down)
          = (result_of degraded, machine_of degraded, events_of degraded)) as Hrun
    by (vm_compute; reflexivity).
  assert (EvColorManagerInit 5 (kErrorOther 4) ∈ events_of degraded) as Hev.
  { vm_compute. repeat constructor. }
  assert (kErrorOther 4 ≠ kErrorNone) as Herr by discriminate.
  destruct (Init_color_manager_failure _ _ _ _ _ _ Hrun Hev Herr)
    as (Hr & Hlog & _ & _ & Hcreate).
  split; [exact Hr|]. split; [exact Hlog|].
  assert (selected_type (ById 0) (this (machine_of degraded)) = Some kBuiltIn)
    as Hsel by (vm_compute; reflexivity).
  assert (is_display_variant kBuiltIn) as Hvar by (left; reflexivity).
  assert (Some 5%positive ≠ NULL) as Hh by discriminate.
  assert (Display_new kBuiltIn (selected_id (ById 0)) (Some 5%positive)
            (hw_info_intf_ (this (machine_of degraded)))
            (buffer_allocator_ (this (machine_of degraded)))
            (world (machine_of degraded))
          = (Some 40%positive, color_manager_down)) as Hnew
    by (vm_compute; reflexivity).
  assert (DisplayBase_Init 40%positive color_manager_down
          = (kErrorNone, color_manager_down)) as Hinit
    by (vm_compute; reflexivity).
  exact (f_equal result_of
           (Hcreate (ById 0) (Some 5%positive) 6%positive kBuiltIn 40%positive
              color_manager_down color_manager_down Hsel Hvar Hh Hnew Hinit)).
Defined.

(** C8, witness.  On the core whose cache is stale: a status query that
    succeeds replaces the cache by the snapshot it returns; a query that
    fails, and the creation of a display, leave the cache alone. *)
Lemma cache_written_only_by_GetDisplaysStatus_witness :
  let refreshed := serve (ReqGetDisplaysStatus ∅) stale in
  let failed := serve (ReqGetDisplaysStatus ∅) (replug status_query_fails running) in
  let created :=
    serve (ReqCreateDisplay (ById 0) (Some 5%positive) (Some 6%positive)) stale in
  (result_of refreshed = Returns (RepStatus kErrorNone hotplugged_status) ∧
   hw_displays_info_ (this (machine_of refreshed)) = hotplugged_status) ∧
  (result_of failed = Returns (RepStatus (kErrorOther 6) hotplugged_status) ∧
   hw_displays_info_ (this (machine_of failed)) = sample_status) ∧
  (result_of created = Returns (RepError kErrorNone) ∧
   hw_displays_info_ (this (machine_of created)) = sample_status).
Proof.
  intros refreshed failed created.
  split; [|split]; (split; [vm_compute; reflexivity|]).
  - assert (serve (ReqGetDisplaysStatus ∅) stale
            = (Returns (RepStatus kErrorNone hotplugged_status),
               machine_of refreshed, events_of refreshed)) as Hrun
      by (vm_compute; reflexivity).
    exact (proj1 (cache_written_only_by_GetDisplaysStatus _ _ _ _ _ Hrun)).
  - assert (serve (ReqGetDisplaysStatus ∅) (replug status_query_fails running)
            = (Returns (RepStatus (kErrorOther 6) hotplugged_status),
               machine_of failed, events_of failed)) as Hrun
      by (vm_compute; reflexivity).
    exact (proj1 (cache_written_only_by_GetDisplaysStatus _ _ _ _ _ Hrun)).
  - assert (serve (ReqCreateDisplay (ById 0) (Some 5%positive) (Some 6%positive)) stale
            = (result_of created, machine_of created, events_of created)) as Hrun
      by (vm_compute; reflexivity).
    exact (proj1 (cache_written_only_by_GetDisplaysStatus _ _ _ _ _ Hrun)).
Defined.

(** C9, counterexample.  The display object's own [Init] reports
    [kErrorMemory]; both overloads hand that error to the caller. *)
Lemma CreateDisplay_returns_kErrorMemory :
  let m := replug display_init_out_of_memory running in
  CreateDisplay kBuiltIn (Some 5%positive) (Some 6%positive) m =
    (Returns kErrorMemory, m,
     [EvNewDisplay kBuiltIn None (Some 5%positive) (Some 20%positive)
        (Some 1%positive) (Some 40%positive);
      EvDisplayInit 40%positive kErrorMemory;
      EvDeleteDisplay 40%positive]) ∧
  CreateDisplay_id 1 (Some 5%positive) (Some 6%positive) m =
    (Returns kErrorMemory, m,
     [EvNewDisplay kPluggable (Some 1) (Some 5%positive) (Some 20%positive)
        (Some 1%positive) (Some 40%positive);
      EvDisplayInit 40%positive kErrorMemory;
      EvDeleteDisplay 40%positive]).
Proof. vm_compute. split; reflexivity. Qed.

(** C9, witness: in that run the error is the one of the object's
    [Init]. *)
Lemma CreateDisplay_error_origin_witness :
  let m := replug display_init_out_of_memory running in
  let refused := CreateDisplay kBuiltIn (Some 5%positive) (Some 6%positive) m in
  result_of refused = Returns kErrorMemory ∧
  ∃ object, EvDisplayInit object kErrorMemory ∈ events_of refused.
Proof.
  intros m refused. split; [reflexivity|].
  assert (CreateDisplay_either (ByType kBuiltIn) (Some 5%positive) (Some 6%positive) m
          = (result_of refused, machine_of refused, events_of refused)) as Hrun
    by (vm_compute; reflexivity).
  destruct (CreateDisplay_error_origin _ _ _ _ _ _ _ Hrun) as (_ & _ & _ & Hmem).
  apply Hmem. reflexivity.
Defined.

(** C10, witness.  The object's [Deinit] fails with error 8; the caller
    of [DestroyDisplay] is told [kErrorNone]. *)
Lemma DestroyDisplay_discards_Deinit_result_witness :
  let m := replug display_deinit_fails running in
  DisplayBase_Deinit 40%positive (world m) = (kErrorOther 8, display_deinit_fails) ∧
  DestroyDisplay (Some 40%positive) m =
    (Returns kErrorNone, m,
     [EvDisplayDeinit 40%positive (kErrorOther 8); EvDeleteDisplay 40%positive]).
Proof.
  intros m. split; [reflexivity|].
  exact (DestroyDisplay_discards_Deinit_result 40%positive m (kErrorOther 8)
           display_deinit_fails eq_refl).
Defined.

(** For the record: display 7 is cached with a type that is none of the
    three variants, so the lookup succeeds and the [default:] label of
    the switch rejects the call. *)
Example CreateDisplay_id_spurious_type :
  CreateDisplay_id 7 (Some 5%positive) (Some 6%positive) running =
    (Returns kErrorParameters, running, [EvLog LogE "Spurious display type %d"]).
Proof. vm_compute. reflexivity. Qed.

(** ** Start-up, on the scripted platforms *)

(** On the healthy platform [Init] succeeds and the composition manager
    has been initialised with the resource info 5, the extension
    interface at 13, the allocator at 1 and the socket handler at 2. *)
Lemma Init_succeeds_iff_comp_manager_up_witness :
  let started := Init (boot healthy) in
  result_of started = Returns kErrorNone ∧
  ∃ hw_res ext alloc sock,
    EvCompManagerInit hw_res ext alloc sock kErrorNone ∈ events_of started.
Proof.
  intros started.
  assert (Init (boot healthy)
          = (result_of started, machine_of started, events_of started)) as Hrun
    by (vm_compute; reflexivity).
  assert (result_of started = Returns kErrorNone) as Hr
    by (vm_compute; reflexivity).
  split; [exact Hr|].
  exact (proj1 (Init_succeeds_iff_comp_manager_up _ _ _ _ Hrun) Hr).
Defined.

(** The ten steps of a successful start-up, in order. *)
Lemma Init_follows_startup_sequence_witness :
  omap init_step (events_of (Init (boot healthy)))
    = [0; 1; 2; 3; 4; 5; 6; 7; 8; 9]%nat ∧
  StronglySorted lt (omap init_step (events_of (Init (boot healthy)))).
Proof.
  split; [vm_compute; reflexivity|].
  assert (Init (boot healthy)
          = (result_of (Init (boot healthy)), machine_of (Init (boot healthy)),
             events_of (Init (boot healthy)))) as Hrun
    by (vm_compute; reflexivity).
  exact (Init_follows_startup_sequence _ _ _ _ Hrun).
Defined.

(** After the successful start-up the provider at address 20 is held and
    the cache is the status it reported. *)
Lemma Init_success_postcondition_witness :
  let started := Init (boot healthy) in
  last (events_of started) = Some EvSignalIgnoreSIGPIPE ∧
  (∀ p, EvHWInfoDestroy p ∉ events_of started) ∧
  ∃ intf error snapshot,
    hw_info_intf_ (this (machine_of started)) = Some intf ∧
    EvHWGetDisplaysStatus intf error snapshot ∈ events_of started ∧
    hw_displays_info_ (this (machine_of started)) = snapshot.
Proof.
  intros started.
  assert (Init (boot healthy)
          = (result_of started, machine_of started, events_of started)) as Hrun
    by (vm_compute; reflexivity).
  assert (result_of started = Returns kErrorNone) as Hr
    by (vm_compute; reflexivity).
  exact (proj2 (Init_success_postcondition _ _ _ _ Hrun) Hr).
Defined.

(** The status query fails with error 6 after writing a status: [Init]
    succeeds all the same and the cache is what the query wrote. *)
Lemma Init_status_failure_tolerated_witness :
  let started := Init (boot status_query_fails) in
  result_of started = Returns kErrorNone ∧
  EvLog LogW "Failed getting displays status. Error = %d" ∈ events_of started ∧
  hw_displays_info_ (this (machine_of started)) = hotplugged_status ∧
  hw_info_intf_ (this (machine_of started)) = Some 20%positive.
Proof.
  intros started.
  assert (Init (boot status_query_fails)
          = (result_of started, machine_of started, events_of started)) as Hrun
    by (vm_compute; reflexivity).
  assert (EvHWGetDisplaysStatus 20%positive (kErrorOther 6) hotplugged_status
            ∈ events_of started) as Hev.
  { vm_compute. repeat constructor. }
  assert (kErrorOther 6 ≠ kErrorNone) as Herr by discriminate.
  exact (Init_status_failure_tolerated _ _ _ _ _ _ _ Hrun Hev Herr).
Defined.

(** The composition manager fails with error 3: that is the error of
    [Init], and it is found in the log. *)
Lemma Init_error_origin_witness :
  let failed := Init (boot comp_manager_down) in
  result_of failed = Returns (kErrorOther 3) ∧
  ((kErrorOther 3 = kErrorUndefined ∧
    ∃ name stored, EvDynLibSym name false stored ∈ events_of failed) ∨
   (∃ fn tag written,
      EvCreateExtensionIntf fn tag (kErrorOther 3) written ∈ events_of failed) ∨
   (∃ written, EvHWInfoCreate (kErrorOther 3) written ∈ events_of failed) ∨
   (∃ intf written,
      EvHWGetHWResourceInfo intf (kErrorOther 3) written ∈ events_of failed) ∨
   (∃ hw_res ext alloc sock,
      EvCompManagerInit hw_res ext alloc sock (kErrorOther 3) ∈ events_of failed)).
Proof.
  intros failed.
  assert (Init (boot comp_manager_down)
          = (result_of failed, machine_of failed, events_of failed)) as Hrun
    by (vm_compute; reflexivity).
  assert (result_of failed = Returns (kErrorOther 3)) as Hr
    by (vm_compute; reflexivity).
  assert (kErrorOther 3 ≠ kErrorNone) as Herr by discriminate.
  split; [exact Hr|].
  exact (proj2 (Init_error_origin _ _ _ _ Hrun) _ Hr Herr).
Defined.

(** The failed start-up leaves the (empty) cache and the caller's slots
    alone. *)
Lemma Init_frame_witness :
  let failed := Init (boot comp_manager_down) in
  slots (machine_of failed) = ∅ ∧
  hw_displays_info_ (this (machine_of failed)) = ∅.
Proof.
  intros failed.
  assert (Init (boot comp_manager_down)
          = (result_of failed, machine_of failed, events_of failed)) as Hrun
    by (vm_compute; reflexivity).
  assert (result_of failed ≠ Returns kErrorNone) as Hr.
  { vm_compute. discriminate. }
  destruct (Init_frame _ _ _ _ Hrun) as (Hslots & _ & _ & Hcache).
  split; [exact Hslots|exact (Hcache Hr)].
Defined.

(** The provider cannot be created and stores no pointer: [Init] returns
    error 5 and destroys nothing.  The provider is created but fails to
    report its resources: [Init] returns error 7 and ends by destroying
    it. *)
Lemma Init_provider_failure_witness :
  let absent := Init (boot provider_create_fails) in
  let mute := Init (boot resource_query_fails) in
  (result_of absent = Returns (kErrorOther 5) ∧
   ∀ p, EvHWInfoDestroy p ∉ events_of absent) ∧
  (result_of mute = Returns (kErrorOther 7) ∧
   last (events_of mute) = Some (EvHWInfoDestroy (Some 20%positive))).
Proof.
  intros absent mute. split.
  - assert (Init (boot provider_create_fails)
            = (result_of absent, machine_of absent, events_of absent)) as Hrun
      by (vm_compute; reflexivity).
    assert ((∃ written, EvHWInfoCreate (kErrorOther 5) written ∈ events_of absent) ∨
            (∃ intf written,
               EvHWGetHWResourceInfo intf (kErrorOther 5) written
                 ∈ events_of absent)) as Hev.
    { left. exists None. vm_compute. repeat constructor. }
    assert (kErrorOther 5 ≠ kErrorNone) as Herr by discriminate.
    destruct (Init_provider_failure _ _ _ _ _ Hrun Hev Herr) as (Hr & _ & Hd).
    assert (hw_info_intf_ (this (machine_of absent)) = None) as Hnone
      by (vm_compute; reflexivity).
    rewrite Hnone in Hd. split; [exact Hr|]. exact Hd.
  - assert (Init (boot resource_query_fails)
            = (result_of mute, machine_of mute, events_of mute)) as Hrun
      by (vm_compute; reflexivity).
    assert ((∃ written, EvHWInfoCreate (kErrorOther 7) written ∈ events_of mute) ∨
            (∃ intf written,
               EvHWGetHWResourceInfo intf (kErrorOther 7) written
                 ∈ events_of mute)) as Hev.
    { right. exists 20%positive, 0. vm_compute. repeat constructor. }
    assert (kErrorOther 7 ≠ kErrorNone) as Herr by discriminate.
    destruct (Init_provider_failure _ _ _ _ _ Hrun Hev Herr) as (Hr & _ & Hd).
    assert (hw_info_intf_ (this (machine_of mute)) = Some 20%positive) as Hheld
      by (vm_compute; reflexivity).
    rewrite Hheld in Hd. split; [exact Hr|]. exact Hd.
Defined.

(** On the healthy platform the collaborators store non-null pointers,
    and [Init] does not fault. *)
Lemma Init_null_safe_witness :
  result_of (Init (boot healthy)) ≠ Faults.
Proof.
  assert (Init (boot healthy)
          = (result_of (Init (boot healthy)), machine_of (Init (boot healthy)),
             events_of (Init (boot healthy)))) as Hrun
    by (vm_compute; reflexivity).
  apply (Init_null_safe _ _ _ _ Hrun).
  - clear Hrun. intros stored Hev. vm_compute in Hev.
    repeat (apply elem_of_cons in Hev as [Hev|Hev];
            [first [discriminate Hev | injection Hev as ->; eauto]|]).
    apply elem_of_nil in Hev. destruct Hev.
  - clear Hrun. intros written Hev. vm_compute in Hev.
    repeat (apply elem_of_cons in Hev as [Hev|Hev];
            [first [discriminate Hev | injection Hev as ->; eauto]|]).
    apply elem_of_nil in Hev. destruct Hev.
Defined.

(** On the healthy platform the composition manager gets the allocator
    at 1, the socket handler at 2, the extension interface at 13 that the
    factory stored, and the resource info 5 that the provider at 20
    reported. *)
Lemma Init_dataflow_witness :
  let started := Init (boot healthy) in
  EvCompManagerInit 5 (Some 13%positive) (Some 1%positive) (Some 2%positive)
    kErrorNone ∈ events_of started ∧
  Some 1%positive = buffer_allocator_ (this (boot healthy)) ∧
  Some 2%positive = socket_handler_ (this (boot healthy)) ∧
  Some 13%positive = extension_intf_ (this (machine_of started)) ∧
  5 = hw_resource_ (this (machine_of started)).
Proof.
  intros started.
  assert (Init (boot healthy)
          = (result_of started, machine_of started, events_of started)) as Hrun
    by (vm_compute; reflexivity).
  assert (EvCompManagerInit 5 (Some 13%positive) (Some 1%positive)
            (Some 2%positive) kErrorNone ∈ events_of started) as Hev.
  { vm_compute. repeat constructor. }
  destruct (Init_dataflow _ _ _ _ _ _ _ _ _ Hrun Hev)
    as (Ha & Hs & Hx & _ & Hres & _).
  split; [exact Hev|]. split; [exact Ha|]. split; [exact Hs|].
  split; [exact Hx|exact Hres].
Defined.

(** The healthy core is shut down: colour manager, composition manager,
    provider 20. *)
Lemma Init_then_Deinit_witness :
  ∃ intf,
    hw_info_intf_ (this running) = Some intf ∧
    (∀ p, EvHWInfoDestroy p ∉ events_of (Init (boot healthy))) ∧
    Deinit running =
      (Returns kErrorNone,
       Build_Machine (this running)
         (HWInfoInterface_Destroy (Some intf)
            (CompManager_Deinit (ColorManagerProxy_Deinit (world running))))
         (slots running),
       [EvColorManagerDeinit; EvCompManagerDeinit; EvHWInfoDestroy (Some intf)]).
Proof.
  assert (Init (boot healthy)
          = (Returns kErrorNone, running, events_of (Init (boot healthy)))) as Hrun
    by (vm_compute; reflexivity).
  exact (Init_then_Deinit _ _ _ Hrun).
Defined.

(** ** Operation, on the scripted platforms *)



Lemma serve_all_cache_witness :
  let served := serve_all session stale in
  result_of served =
    Returns [RepStatus kErrorNone hotplugged_status; RepError kErrorNone;
             RepError kErrorNone; RepBool true;
             RepStatus kErrorNone hotplugged_status] ∧
  hw_displays_info_ (this (machine_of served)) = hotplugged_status.
Proof.
  intros served.
  assert (serve_all session stale
          = (Returns [RepStatus kErrorNone hotplugged_status; RepError kErrorNone;
                      RepError kErrorNone; RepBool true;
                      RepStatus kErrorNone hotplugged_status],
             machine_of served, events_of served)) as Hrun
    by (vm_compute; reflexivity).
  split; [vm_compute; reflexivity|].
  exact (serve_all_cache _ _ _ _ _ Hrun).
Defined.

(** Creating display 0 leaves every field but the cache as it was. *)
Lemma serve_fields_frame_witness :
  let created :=
    serve (ReqCreateDisplay (ById 0) (Some 5%positive) (Some 6%positive)) running in
  this (machine_of created)
    = set_hw_displays_info_ (hw_displays_info_ (this (machine_of created)))
        (this running).
Proof.
  intros created.
  assert (serve (ReqCreateDisplay (ById 0) (Some 5%positive) (Some 6%positive))
            running
          = (result_of created, machine_of created, events_of created)) as Hrun
    by (vm_compute; reflexivity).
  exact (serve_fields_frame _ _ _ _ _ Hrun).
Defined.

(** Creating display 0 writes slot 6, with the object at address 40. *)
Lemma serve_slots_frame_witness :
  let created :=
    serve (ReqCreateDisplay (ById 0) (Some 5%positive) (Some 6%positive)) running in
  ∃ sel event_handler object,
    ReqCreateDisplay (ById 0) (Some 5%positive) (Some 6%positive)
      = ReqCreateDisplay sel event_handler (Some 6%positive) ∧
    result_of created = Returns (RepError kErrorNone) ∧
    slots (machine_of created) !! 6%positive = Some (Some object) ∧
    EvDisplayInit object kErrorNone ∈ events_of created.
Proof.
  intros created.
  assert (serve (ReqCreateDisplay (ById 0) (Some 5%positive) (Some 6%positive))
            running
          = (result_of created, machine_of created, events_of created)) as Hrun
    by (vm_compute; reflexivity).
  assert (slots (machine_of created) !! 6%positive ≠ slots running !! 6%positive)
    as Hslot.
  { vm_compute. discriminate. }
  exact (serve_slots_frame _ _ _ _ _ _ Hrun Hslot).
Defined.

(** Display 1 is cached as pluggable: the pluggable variant is
    constructed, bound to id 1, with the handler at 5, the provider at 20
    and the allocator at 1. *)
Lemma CreateDisplay_constructor_arguments_witness :
  let created := CreateDisplay_either (ById 1) (Some 5%positive) (Some 6%positive) running in
  EvNewDisplay kPluggable (Some 1) (Some 5%positive) (Some 20%positive)
    (Some 1%positive) (Some 40%positive) ∈ events_of created ∧
  selected_type (ById 1) (this running) = Some kPluggable ∧
  Some 20%positive = hw_info_intf_ (this running) ∧
  Some 1%positive = buffer_allocator_ (this running).
Proof.
  intros created.
  assert (CreateDisplay_either (ById 1) (Some 5%positive) (Some 6%positive) running
          = (result_of created, machine_of created, events_of created)) as Hrun
    by (vm_compute; reflexivity).
  assert (EvNewDisplay kPluggable (Some 1) (Some 5%positive) (Some 20%positive)
            (Some 1%positive) (Some 40%positive) ∈ events_of created) as Hev.
  { vm_compute. repeat constructor. }
  destruct (CreateDisplay_constructor_arguments _ _ _ _ _ _ _ _ _ _ _ _ _ Hrun Hev)
    as (Hsel & _ & _ & _ & Hhw & Halloc & _).
  split; [exact Hev|]. split; [exact Hsel|]. split; [exact Hhw|exact Halloc].
Defined.

(** No memory for the object: the exception leaves [CreateDisplay]. *)
Lemma CreateDisplay_allocation_failure_witness :
  let m := replug out_of_memory running in
  let refused := CreateDisplay_either (ByType kVirtual) (Some 5%positive) (Some 6%positive) m in
  result_of refused = Throws ∧
  events_of refused =
    [EvNewDisplay kVirtual None (Some 5%positive) (Some 20%positive)
       (Some 1%positive) None] ∧
  this (machine_of refused) = this m ∧
  slots (machine_of refused) = slots m.
Proof.
  intros m refused.
  assert (CreateDisplay_either (ByType kVirtual) (Some 5%positive) (Some 6%positive) m
          = (result_of refused, machine_of refused, events_of refused)) as Hrun
    by (vm_compute; reflexivity).
  assert (EvNewDisplay kVirtual None (Some 5%positive) (Some 20%positive)
            (Some 1%positive) None ∈ events_of refused) as Hev.
  { vm_compute. repeat constructor. }
  exact (CreateDisplay_allocation_failure _ _ _ _ _ _ _ _ _ _ _ _ Hrun Hev).
Defined.

(** Display 1 was cached; it is removed and the status is refreshed:
    [CreateDisplay(1, ...)] is now rejected as an unknown id. *)
Lemma snapshot_decides_lookup_witness :
  let refreshed := GetDisplaysStatus ∅ (replug unplugged running) in
  hw_displays_info_ (this running) !! 1
    = Some {| display_type := kPluggable; is_connected := false |} ∧
  CreateDisplay_id 1 (Some 5%positive) (Some 6%positive) (machine_of refreshed) =
    (Returns kErrorParameters, machine_of refreshed,
     [EvLog LogE "Spurious display id %d"]).
Proof.
  intros refreshed. split; [vm_compute; reflexivity|].
  assert (GetDisplaysStatus ∅ (replug unplugged running)
          = (Returns (kErrorNone, unplugged_status), machine_of refreshed,
             events_of refreshed)) as Hstatus by (vm_compute; reflexivity).
  assert (Some 5%positive ≠ NULL) as Hh by discriminate.
  assert (Some 6%positive ≠ NULL) as Hl by discriminate.
  assert (unplugged_status !! 1 = None) as Hmiss by (vm_compute; reflexivity).
  exact (proj2 (snapshot_decides_lookup _ _ _ _ _ 1 _ _ Hstatus Hh Hl) Hmiss).
Defined.

(** Display 0 is created in slot 6 and destroyed through that slot. *)
Lemma CreateDisplay_then_DestroyDisplay_witness :
  let created := CreateDisplay_either (ById 0) (Some 5%positive) (Some 6%positive) running in
  ∃ object,
    slots (machine_of created) !! 6%positive = Some (Some object) ∧
    EvDisplayInit object kErrorNone ∈ events_of created ∧
    ∀ error w,
      DisplayBase_Deinit object (world (machine_of created)) = (error, w) →
      DestroyDisplay (slots (machine_of created) !!! 6%positive) (machine_of created) =
        (Returns kErrorNone,
         Build_Machine (this running) (Display_delete object w)
           (slots (machine_of created)),
         [EvDisplayDeinit object error; EvDeleteDisplay object]).
Proof.
  intros created.
  assert (CreateDisplay_either (ById 0) (Some 5%positive) (Some 6%positive) running
          = (Returns kErrorNone, machine_of created, events_of created)) as Hrun
    by (vm_compute; reflexivity).
  exact (CreateDisplay_then_DestroyDisplay _ _ _ _ _ _ Hrun).
Defined.

(** The null handle is refused, the handle 40 is shut down and
    deleted. *)
Lemma DestroyDisplay_null_iff_witness :
  DestroyDisplay NULL running = (Returns kErrorParameters, running, []) ∧
  ∃ error,
    events_of (DestroyDisplay (Some 40%positive) running)
      = [EvDisplayDeinit 40%positive error; EvDeleteDisplay 40%positive].
Proof.
  split.
  - assert (DestroyDisplay NULL running
            = (result_of (DestroyDisplay NULL running),
               machine_of (DestroyDisplay NULL running),
               events_of (DestroyDisplay NULL running))) as Hrun
      by (vm_compute; reflexivity).
    destruct (DestroyDisplay_null_iff _ _ _ _ _ Hrun) as (Hiff & Hnull & _).
    destruct (Hnull eq_refl) as [Hm Ht].
    rewrite Hrun, (proj2 Hiff eq_refl), Hm, Ht. reflexivity.
  - assert (DestroyDisplay (Some 40%positive) running
            = (result_of (DestroyDisplay (Some 40%positive) running),
               machine_of (DestroyDisplay (Some 40%positive) running),
               events_of (DestroyDisplay (Some 40%positive) running))) as Hrun
      by (vm_compute; reflexivity).
    destruct (DestroyDisplay_null_iff _ _ _ _ _ Hrun) as (_ & _ & Hcalls & _).
    exact (Hcalls _ eq_refl).
Defined.
